(** * Scan & Archive API: a shallow embedding of [main.py]

    The route handlers of [src/main.py] are embedded as functions in a small
    state-and-exception monad over the process-wide database handle.  A
    MongoDB document is a finite map from field names to values, a
    collection is a finite map from [ObjectId] to documents, the database is
    a finite map from collection names to collections, and the handle [db]
    is [None] when the database is not configured. *)

From Stdlib Require Import ZArith NArith Ascii String List Bool Lia.
From Stdlib.Strings Require Import Byte.
From stdpp Require Import base option decidable countable strings list
  gmap fin_maps sorting.

Set Warnings "-register-all".

Local Open Scope string_scope.
Local Open Scope Z_scope.

(** ** Text *)

(** Python [str] values are represented by their UTF-8 encoding, one
    [ascii] per byte; [bytes] values are [list byte]. *)
Module Text.

Definition code (c : ascii) : N := N_of_ascii c.

Definition in_range (lo hi : N) (c : ascii) : bool :=
  ((lo <=? code c) && (code c <=? hi))%N.

(** ASCII case folding of one character, [A]-[Z] to [a]-[z]. *)
Definition lower_ascii (c : ascii) : ascii :=
  if in_range 65 90 c then ascii_of_N (code c + 32) else c.

Fixpoint lower (s : string) : string :=
  match s with
  | EmptyString => EmptyString
  | String c t => String (lower_ascii c) (lower t)
  end.

Fixpoint all (p : ascii -> bool) (s : string) : bool :=
  match s with
  | EmptyString => true
  | String c t => p c && all p t
  end.

(** [starts_with p s]: [s.startswith(p)]. *)
Fixpoint starts_with (p s : string) : bool :=
  match p, s with
  | EmptyString, _ => true
  | String a p', String b s' => if Ascii.eqb a b then starts_with p' s' else false
  | String _ _, EmptyString => false
  end.

(** [contains p s]: Python's [p in s]. *)
Fixpoint contains (p s : string) : bool :=
  starts_with p s ||
  match s with
  | EmptyString => false
  | String _ t => contains p t
  end.

(** Python's truth value of a [str]. *)
Definition nonempty (s : string) : bool :=
  match s with EmptyString => false | String _ _ => true end.

(** Bytes that continue a multi-byte character. *)
Definition is_cont (c : ascii) : bool := in_range 128 191 c.

Definition cont_bits (c : ascii) : N := N.land (code c) 63.

(** The character that starts at byte [c], with [t] after it, and the
    number of continuation bytes it takes.  A byte that does not start a
    well-formed sequence, which no Python [str] contains, counts as a
    character of its own. *)
Definition char_at (c : ascii) (t : string) : N * nat :=
  let n := code c in
  if (n <? 192)%N then (n, 0%nat)
  else if (n <? 224)%N then
    match t with
    | String c1 _ =>
        if is_cont c1 then (((n - 192) * 64 + cont_bits c1)%N, 1%nat) else (n, 0%nat)
    | _ => (n, 0%nat)
    end
  else if (n <? 240)%N then
    match t with
    | String c1 (String c2 _) =>
        if is_cont c1 && is_cont c2
        then ((((n - 224) * 64 + cont_bits c1) * 64 + cont_bits c2)%N, 2%nat)
        else (n, 0%nat)
    | _ => (n, 0%nat)
    end
  else
    match t with
    | String c1 (String c2 (String c3 _)) =>
        if is_cont c1 && is_cont c2 && is_cont c3
        then (((((n - 240) * 64 + cont_bits c1) * 64 + cont_bits c2) * 64
                + cont_bits c3)%N, 3%nat)
        else (n, 0%nat)
    | _ => (n, 0%nat)
    end.

(** The characters of [s] after its first [skip] bytes. *)
Fixpoint chars_from (skip : nat) (s : string) : list N :=
  match s with
  | EmptyString => []
  | String c t =>
      match skip with
      | S k => chars_from k t
      | O => (char_at c t).1 :: chars_from (char_at c t).2 t
      end
  end.

(** The characters (code points) of a text. *)
Definition codepoints (s : string) : list N := chars_from 0 s.

(** [s.encode("latin-1")] succeeds: every character is below U+0100. *)
Definition latin1 (s : string) : bool :=
  forallb (fun c => (c <? 256)%N) (codepoints s).

(** [p] occurs in [s], on lists of characters. *)
Fixpoint cp_starts_with (p s : list N) : bool :=
  match p, s with
  | [], _ => true
  | a :: p', b :: s' => (a =? b)%N && cp_starts_with p' s'
  | _ :: _, [] => false
  end.

Fixpoint cp_contains (p s : list N) : bool :=
  cp_starts_with p s ||
  match s with
  | [] => false
  | _ :: t => cp_contains p t
  end.

End Text.

(** ** bson.objectid *)

Module Oid.

Definition is_hex (c : ascii) : bool :=
  Text.in_range 48 57 c || Text.in_range 97 102 c || Text.in_range 65 70 c.

Definition is_lower_hex (c : ascii) : bool :=
  Text.in_range 48 57 c || Text.in_range 97 102 c.

(** ASCII whitespace, as [bytes.fromhex] skips it. *)
Definition is_space (c : ascii) : bool :=
  Text.in_range 9 13 c || Text.in_range 32 32 c.

(** [bytes.fromhex(s)], with the bytes kept as lower-case hexadecimal
    text: pairs of hexadecimal digits, with any ASCII whitespace before a
    pair and at the end skipped.  [None] stands for [ValueError]. *)
Fixpoint fromhex (s : string) : option string :=
  match s with
  | EmptyString => Some EmptyString
  | String c t =>
      if is_space c then fromhex t
      else if is_hex c then
        match t with
        | String c' t' =>
            if is_hex c' then
              match fromhex t' with
              | Some r =>
                  Some (String (Text.lower_ascii c) (String (Text.lower_ascii c') r))
              | None => None
              end
            else None
        | EmptyString => None
        end
      else None
  end.

(** The canonical text of an id, as [str(oid)] prints it: 24 lower-case
    hexadecimal digits. *)
Definition canonical (s : string) : bool :=
  (String.length s =? 24)%nat && Text.all is_lower_hex s.

End Oid.

(** An [ObjectId] as the driver generates and stores it: twelve bytes,
    kept as the canonical hexadecimal text. *)
Definition ObjectId : Type := { s : string | Is_true (Oid.canonical s) }.

#[global] Instance ObjectId_eq_dec : EqDecision ObjectId := _.
#[global] Instance ObjectId_countable : Countable ObjectId := _.

(** [str(oid)] *)
Definition str_of_ObjectId (o : ObjectId) : string := proj1_sig o.

(** An [ObjectId] object: a generated identifier, or one the constructor
    built from text in which whitespace took the place of digits, so that
    it holds fewer than twelve bytes.  No stored record carries the
    latter as its [_id]. *)
Inductive object_id : Type :=
  | Id (o : ObjectId)
  | ShortId (hex : string).

Coercion Id : ObjectId >-> object_id.

(** [ObjectId(s)] for a [str] argument: [s] must have 24 characters and
    [bytes.fromhex(s)] must succeed; [None] stands for [InvalidId]. *)
Definition ObjectId_of_str (s : string) : option object_id :=
  if (String.length s =? 24)%nat then
    match Oid.fromhex s with
    | Some hex =>
        match decide (Is_true (Oid.canonical hex)) with
        | left H => Some (Id (exist _ hex H))
        | right _ => Some (ShortId hex)
        end
    | None => None
    end
  else None.

(** ** Values *)

(** The Python/BSON values the handlers store and return. *)
Inductive value : Type :=
  | VNone
  | VStr (s : string)
  | VInt (n : Z)
  | VBytes (b : list byte)
  | VOid (o : object_id)
  | VList (l : list value)
  | VDate (t : Z).

(** Python's truth value, as tested by [if v], [not v] and [v or w]. *)
Definition truthy (v : value) : bool :=
  match v with
  | VNone => false
  | VStr s => Text.nonempty s
  | VInt n => negb (n =? 0)
  | VBytes b => match b with [] => false | _ => true end
  | VOid _ => true
  | VList l => match l with [] => false | _ => true end
  | VDate _ => true
  end.

Definition of_opt_str (o : option string) : value :=
  match o with Some s => VStr s | None => VNone end.

(** A Python [dict] / MongoDB document. *)
Abbreviation doc := (gmap string value).

(** [d.get(k)] *)
Definition get (d : doc) (k : string) : value := default VNone (d !! k).

(** [d.get(k, dflt)] *)
Definition get_or (d : doc) (k : string) (dflt : value) : value :=
  default dflt (d !! k).

(** ** The database handle and the handler monad *)

Abbreviation collection := (gmap ObjectId doc).
Abbreviation database := (gmap string collection).

(** What a handler produces: a response value, or an error response with a
    status code.  [NotModelled] marks an outcome that lies outside what
    is modelled here (a stored value of a kind the handlers never store);
    nothing is stated about it. *)
Inductive result (A : Type) : Type :=
  | Ok (a : A)
  | HTTPException (status_code : Z) (detail : string)
  | NotModelled.
Arguments Ok {A} a.
Arguments HTTPException {A} status_code detail.
Arguments NotModelled {A}.

(** A handler reads and writes the module-level handle [db]; the state
    reached is kept when an exception is raised, since earlier writes are
    not rolled back. *)
Definition M (A : Type) : Type := option database -> result A * option database.

#[global] Instance M_ret : MRet M := fun A a h => (Ok a, h).
#[global] Instance M_bind : MBind M := fun A B k m h =>
  match m h with
  | (Ok a, h') => k a h'
  | (HTTPException c d, h') => (HTTPException c d, h')
  | (NotModelled, h') => (NotModelled, h')
  end.

(** [raise HTTPException(status_code=c, detail=d)] *)
Definition raise {A} (c : Z) (d : string) : M A := fun h => (HTTPException c d, h).

(** An exception no handler catches: the framework answers 500. *)
Definition unhandled {A} : M A := raise 500 "Internal Server Error".

Definition not_modelled {A} : M A := fun h => (NotModelled, h).

(** Reading the global [db]. *)
Definition db : M (option database) := fun h => (Ok h, h).

(** [db[name]] *)
Definition coll (d : database) (name : string) : collection :=
  default ∅ (d !! name).

(** Running a database operation; on a missing handle [db[name]] is a
    [TypeError]. *)
Definition with_db {A} (f : database -> result A * database) : M A :=
  fun h =>
    match h with
    | None => unhandled h
    | Some d => let '(r, d') := f d in (r, Some d')
    end.

(** ** pymongo *)

(** Documents are stored under their [_id]; a query returns the document
    with its [_id] field.  Every [_id] is a generated [ObjectId], so a
    filter on any other value selects nothing. *)
Definition with_id (o : ObjectId) (d : doc) : doc := <["_id" := VOid o]> d.

Definition lookup_id (c : collection) (v : value) : option doc :=
  match v with
  | VOid (Id o) => with_id o <$> c !! o
  | _ => None
  end.

(** [db[name].find_one({"_id": v})] *)
Definition find_one (name : string) (v : value) : M (option doc) :=
  with_db (fun d => (Ok (lookup_id (coll d name) v), d)).

(** The writes, as functions on the database. *)
Definition db_insert (name : string) (o : ObjectId) (data : doc)
    (d : database) : database :=
  <[name := <[o := data]> (coll d name)]> d.

Definition db_set (name : string) (o : ObjectId) (fields : doc)
    (d : database) : database :=
  match coll d name !! o with
  | Some x => <[name := <[o := fields ∪ x]> (coll d name)]> d
  | None => d
  end.

Definition db_delete (name : string) (o : ObjectId) (d : database) : database :=
  match coll d name !! o with
  | Some _ => <[name := delete o (coll d name)]> d
  | None => d
  end.

(** [db[name].update_one({"_id": v}, {"$set": fields})]: the match gets the
    fields of [fields] written over its own; with no match nothing is
    written. *)
Definition update_one (name : string) (v : value) (fields : doc) : M unit :=
  with_db (fun d =>
    match v with
    | VOid (Id o) => (Ok tt, db_set name o fields d)
    | _ => (Ok tt, d)
    end).

(** [db[name].delete_one({"_id": v})] *)
Definition delete_one (name : string) (v : value) : M unit :=
  with_db (fun d =>
    match v with
    | VOid (Id o) => (Ok tt, db_delete name o d)
    | _ => (Ok tt, d)
    end).

(** [db[name].insert_one(data)] with [new_id] the identifier the driver
    generates; an identifier already in the collection is a
    [DuplicateKeyError]. *)
Definition insert_one (name : string) (new_id : ObjectId) (data : doc) : M ObjectId :=
  with_db (fun d =>
    match coll d name !! new_id with
    | Some _ => (HTTPException 500 "Internal Server Error", d)
    | None => (Ok new_id, db_insert name new_id data d)
    end).

(** *** [$regex] with option [i] *)

(** The database's regular-expression library is not part of this
    repository.  Patterns made of literal characters and [.] are
    modelled here, over the characters of pattern and text; so is a
    pattern that opens a group and cannot close it, which the server
    rejects.  The rest is taken from the library as a parameter (see
    [Engine]). *)
Module Regex.

Inductive atom : Type :=
  | Lit (c : N)
  | AnyChar.

(** The characters with a meaning of their own outside a character
    class: [\ ^ $ . | ? * + ( ) [ {]. *)
Definition is_special (c : N) : bool :=
  existsb (N.eqb c) [92; 94; 36; 46; 124; 63; 42; 43; 40; 41; 91; 123]%N.

(** A character stands for itself unless it is special; a NUL is left to
    the library. *)
Definition atom_of (c : N) : option atom :=
  if (c =? 46)%N then Some AnyChar
  else if is_special c || (c =? 0)%N then None
  else Some (Lit c).

Fixpoint compile (q : list N) : option (list atom) :=
  match q with
  | [] => Some []
  | c :: t =>
      match atom_of c, compile t with
      | Some a, Some r => Some (a :: r)
      | _, _ => None
      end
  end.

(** A pattern of literal characters only. *)
Definition literal (q : string) : bool :=
  forallb (fun c => negb (is_special c) && negb (c =? 0)%N) (Text.codepoints q).

(** A pattern of literal characters, [.] and at least one [(], with no
    [)] to close the group: a compile error. *)
Definition unclosed (q : list N) : bool :=
  existsb (N.eqb 40) q &&
  forallb (fun c => (c =? 40)%N || match atom_of c with Some _ => true | None => false end) q.

(** Case folding of one character: ASCII capitals fold to their small
    letters; any other character folds as [table], the library's table,
    says. *)
Definition casefold (table : N -> N) (c : N) : N :=
  if (c <? 128)%N
  then (if (65 <=? c)%N && (c <=? 90)%N then c + 32 else c)%N
  else table c.

(** The pattern matches at the start of [s]; [.] takes one character
    other than a line feed. *)
Fixpoint match_here (fold : N -> N) (p : list atom) (s : list N) : bool :=
  match p with
  | [] => true
  | a :: p' =>
      match s with
      | [] => false
      | c :: t =>
          match a with
          | Lit x => (fold x =? fold c)%N && match_here fold p' t
          | AnyChar => negb (c =? 10)%N && match_here fold p' t
          end
      end
  end.

(** The pattern matches somewhere in [s]. *)
Fixpoint search (fold : N -> N) (p : list atom) (s : list N) : bool :=
  match_here fold p s ||
  match s with
  | [] => false
  | _ :: t => search fold p t
  end.

End Regex.

(** What compiling a pattern gives: a test on texts, or a refusal. *)
Inductive compiled : Type :=
  | Matcher (m : string -> bool)
  | Invalid.

(** The parts of the regular-expression library taken as parameters: its
    case-folding table for the characters outside ASCII, and what it
    makes of the patterns not modelled in [Regex]. *)
Record Engine : Type := Build_Engine
  { case_table : N -> N;
    other_patterns : string -> compiled }.

(** Compiling [q] with option [i]. *)
Definition regex (e : Engine) (q : string) : compiled :=
  match Regex.compile (Text.codepoints q) with
  | Some rx =>
      Matcher (fun s =>
        Regex.search (Regex.casefold (case_table e)) rx (Text.codepoints s))
  | None =>
      if Regex.unclosed (Text.codepoints q) then Invalid else other_patterns e q
  end.

(** The two filters [list_documents] builds. *)
Inductive query : Type :=
  | MatchAll                   (* {} *)
  | TitleOrTags (q : string).  (* {"$or": [{"title": {"$regex": q, "$options": "i"}},
                                           {"tags": {"$elemMatch": {"$regex": q, "$options": "i"}}}]} *)

Definition regex_value (m : string -> bool) (v : value) : bool :=
  match v with
  | VStr s => m s
  | _ => false
  end.

(** [{field: {"$regex": ...}}]: a string field is matched itself, a list
    field through its elements. *)
Definition field_regex (m : string -> bool) (v : option value) : bool :=
  match v with
  | Some (VStr s) => m s
  | Some (VList l) => existsb (regex_value m) l
  | _ => false
  end.

(** [{field: {"$elemMatch": {"$regex": ...}}}] *)
Definition elem_match_regex (m : string -> bool) (v : option value) : bool :=
  match v with
  | Some (VList l) => existsb (regex_value m) l
  | _ => false
  end.

(** The test a filter makes on a document; [None] when the server
    refuses the pattern. *)
Definition select (e : Engine) (f : query) : option (doc -> bool) :=
  match f with
  | MatchAll => Some (fun _ => true)
  | TitleOrTags q =>
      match regex e q with
      | Matcher m =>
          Some (fun d => field_regex m (d !! "title") || elem_match_regex m (d !! "tags"))
      | Invalid => None
      end
  end.

(** *** [sort("created_at", -1)] *)

(** The creation time of a document; [None] when the field is missing or
    holds no date.  Such documents sort after all dated ones, in an order
    among themselves that is not specified. *)
Definition created_at (d : doc) : option Z :=
  match d !! "created_at" with
  | Some (VDate t) => Some t
  | _ => None
  end.

Definition key_leb (a b : option Z) : bool :=
  match a, b with
  | None, _ => true
  | Some _, None => false
  | Some x, Some y => x <=? y
  end.

(** [newer_first d1 d2]: [d1] may stand before [d2] in descending order. *)
Definition newer_first (d1 d2 : doc) : Prop :=
  Is_true (key_leb (created_at d2) (created_at d1)).

#[global] Instance newer_first_dec : RelDecision newer_first.
Proof. intros d1 d2. unfold newer_first. apply _. Defined.

(** All documents of a collection, in the map's enumeration order. *)
Definition documents (c : collection) : list doc :=
  (fun p => with_id (fst p) (snd p)) <$> map_to_list c.

(** [db[name].find(f).sort("created_at", -1)], materialised.  A pattern
    the server refuses is an [OperationFailure], which no handler
    catches. *)
Definition find_sorted (e : Engine) (name : string) (f : query) : M (list doc) :=
  with_db (fun d =>
    match select e f with
    | Some p => (Ok (merge_sort newer_first (List.filter p (documents (coll d name)))), d)
    | None => (HTTPException 500 "Internal Server Error", d)
    end).

(** ** [bytes.decode(errors="ignore")] *)

(** UTF-8 decoding that drops what does not decode.  The decoded text is
    again kept as UTF-8, so decoding keeps exactly the bytes of the
    well-formed sequences.  An ill-formed sequence ends at the first byte
    that cannot continue it, and that byte is examined afresh. *)
Module Utf8.

Definition bcode (b : byte) : N := Byte.to_N b.

Inductive state : Type :=
  | Idle
  | Pending (seen : list byte) (need : nat) (lo hi : N).

Definition between (lo hi n : N) : bool := ((lo <=? n) && (n <=? hi))%N.

Definition open_seq (b : byte) : state * list byte :=
  let n := bcode b in
  if (n <? 128)%N then (Idle, [b])
  else if between 194 223 n then (Pending [b] 1 128 191, [])
  else if (n =? 224)%N then (Pending [b] 2 160 191, [])
  else if between 225 236 n || between 238 239 n then (Pending [b] 2 128 191, [])
  else if (n =? 237)%N then (Pending [b] 2 128 159, [])
  else if (n =? 240)%N then (Pending [b] 3 144 191, [])
  else if between 241 243 n then (Pending [b] 3 128 191, [])
  else if (n =? 244)%N then (Pending [b] 3 128 143, [])
  else (Idle, []).

Definition step (s : state) (b : byte) : state * list byte :=
  match s with
  | Idle => open_seq b
  | Pending seen need lo hi =>
      if between lo hi (bcode b) then
        match need with
        | O => open_seq b
        | S O => (Idle, (seen ++ [b])%list)
        | S k => (Pending (seen ++ [b])%list k 128 191, [])
        end
      else open_seq b
  end.

(** A sequence cut short by the end of the data is dropped. *)
Fixpoint run (s : state) (bs : list byte) : list byte :=
  match bs with
  | [] => []
  | b :: t => let '(s', out) := step s b in (out ++ run s' t)%list
  end.

Definition decode_ignore (bs : list byte) : string :=
  string_of_list_byte (run Idle bs).

(** The bytes of the sequence a state is in the middle of. *)
Definition pending (s : state) : list byte :=
  match s with
  | Idle => []
  | Pending seen _ _ _ => seen
  end.

End Utf8.

(** ** Schemas *)

Module DocumentCreate.
Record t : Type := Build
  { title : string;
    tags : option (list string);
    notes : option string }.
End DocumentCreate.

(** The dictionary a handler returns for a document.  The framework's
    validation of it against the response model is not modelled. *)
Module DocumentOut.
Record t : Type := Build
  { id : string;
    title : value;
    tags : value;
    notes : value;
    mime_type : value;
    size : value;
    text_preview : value }.
End DocumentOut.

(** An uploaded file: its name, its declared content type, and the bytes
    [await file.read()] returns. *)
Module UploadFile.
Record t : Type := Build
  { filename : option string;
    content_type : option string;
    read : list byte }.
End UploadFile.

(** The download response: the single chunk streamed, the media type
    given to the constructor (in the header of a [text/] type the
    framework adds a charset to it), and the value interpolated into the
    header [Content-Disposition: attachment; filename=...]. *)
Module StreamingResponse.
Record t : Type := Build
  { body : list byte;
    media_type : value;
    disposition_filename : value }.
End StreamingResponse.

Definition DOC_COLLECTION : string := "document".
Definition FILE_COLLECTION : string := "fileblob".

(** [payload.tags or []] *)
Definition tags_or_empty (payload : DocumentCreate.t) : value :=
  match DocumentCreate.tags payload with
  | Some (t :: ts) => VList (VStr <$> (t :: ts))
  | _ => VList []
  end.

(** [len(content)] *)
Definition len (content : list byte) : Z := Z.of_nat (length content).

(** Modelled from the spec: [database.create_document] is imported by
    [main.py] but is not part of the sources.  The spec describes it as a
    thin helper that inserts a mapping of fields into a named collection
    and returns its generated identifier (as text), and lists [created_at]
    as an attribute of stored documents that the creation handler does not
    set itself; the helper therefore stamps it with the current time
    [now].  [new_id] is the identifier generated for the insertion. *)
Definition create_document (new_id : ObjectId) (now : Z)
    (collection_name : string) (data : doc) : M string :=
  inserted ← insert_one collection_name new_id (<["created_at" := VDate now]> data);
  mret (str_of_ObjectId inserted).

(** [str(d["_id"])] *)
Definition str_id (d : doc) : M string :=
  match d !! "_id" with
  | Some (VOid (Id o)) => mret (str_of_ObjectId o)
  | Some _ => not_modelled
  | None => unhandled
  end.

(** The dictionary literal every document-returning handler ends with. *)
Definition document_out (d : doc) : M DocumentOut.t :=
  i ← str_id d;
  mret (DocumentOut.Build i
          (get d "title")
          (get_or d "tags" (VList []))
          (get d "notes")
          (get d "mime_type")
          (get d "size")
          (get d "text_preview")).

(** Subscripting the result of [find_one]: [None["_id"]] is a
    [TypeError]. *)
Definition document_out_opt (d : option doc) : M DocumentOut.t :=
  match d with
  | Some d => document_out d
  | None => unhandled
  end.

(** ** Handlers *)

(** [POST /api/documents] *)
Definition create_document_metadata (new_id : ObjectId) (now : Z)
    (payload : DocumentCreate.t) : M DocumentOut.t :=
  h ← db;
  if h is None then raise 500 "Database not configured" else
  let doc : doc :=
    {[ "title" := VStr (DocumentCreate.title payload);
       "tags" := tags_or_empty payload;
       "notes" := of_opt_str (DocumentCreate.notes payload);
       "mime_type" := VNone;
       "size" := VNone;
       "text_preview" := VNone ]} in
  inserted_id ← create_document new_id now DOC_COLLECTION doc;
  match ObjectId_of_str inserted_id with
  | None => unhandled
  | Some o =>
      saved ← find_one DOC_COLLECTION (VOid o);
      document_out_opt saved
  end.

(** [file.content_type and ("text" in file.content_type or
    file.content_type == "application/pdf")] *)
Definition wants_preview (content_type : option string) : bool :=
  match content_type with
  | Some ct =>
      Text.nonempty ct && (Text.contains "text" ct || String.eqb ct "application/pdf")
  | None => false
  end.

(** [POST /api/documents/{doc_id}/upload] *)
Definition upload_document_file (new_id : ObjectId) (now : Z)
    (doc_id : string) (file : UploadFile.t) : M DocumentOut.t :=
  h ← db;
  if h is None then raise 500 "Database not configured" else
  match ObjectId_of_str doc_id with
  | None => raise 400 "Invalid document id"
  | Some oid =>
      existing ← find_one DOC_COLLECTION (VOid oid);
      (* a document found carries its [_id], so it is a non-empty dict *)
      if existing is None then raise 404 "Document not found" else
      let content := UploadFile.read file in
      let blob : doc :=
        {[ "doc_id" := VOid oid;
           "filename" := of_opt_str (UploadFile.filename file);
           "content_type" := of_opt_str (UploadFile.content_type file);
           "size" := VInt (len content);
           "content" := VBytes content ]} in
      blob_id ← create_document new_id now FILE_COLLECTION blob;
      match ObjectId_of_str blob_id with
      | None => unhandled
      | Some b =>
          update_one DOC_COLLECTION (VOid oid)
            {[ "mime_type" := of_opt_str (UploadFile.content_type file);
               "size" := VInt (len content);
               "file_blob_id" := VOid b ]};;
          updated ← find_one DOC_COLLECTION (VOid oid);
          updated ←
            (if wants_preview (UploadFile.content_type file) then
               (* errors="ignore" never raises: the except branch is dead *)
               let text_preview := VStr (Utf8.decode_ignore (take 1024 content)) in
               update_one DOC_COLLECTION (VOid oid) {[ "text_preview" := text_preview ]};;
               find_one DOC_COLLECTION (VOid oid)
             else mret updated);
          document_out_opt updated
      end
  end.

(** [blob["content"]] as the chunk to stream. *)
Definition blob_content (blob : doc) : M (list byte) :=
  match blob !! "content" with
  | Some (VBytes b) => mret b
  | Some _ => not_modelled
  | None => unhandled
  end.

(** [v or w] *)
Definition py_or (v w : value) : value := if truthy v then v else w.

(** [str(v)], as the f-string of the header formats it. *)
Definition header_text (v : value) : option string :=
  match v with
  | VNone => Some "None"
  | VStr s => Some s
  | _ => None
  end.

(** [StreamingResponse(iter([content]), media_type=media,
    headers={"Content-Disposition": f"attachment; filename={name}"})].
    The constructor encodes the header values as Latin-1 inside the
    handler: a file name or a media type with a character above U+00FF is
    a [UnicodeEncodeError], and a media type that is no [str] has no
    [startswith]; either way the framework answers 500. *)
Definition streaming_response (content : list byte) (media name : value)
    : M StreamingResponse.t :=
  match header_text name with
  | None => not_modelled
  | Some file_name =>
      match media with
      | VStr media_type =>
          if Text.latin1 file_name && Text.latin1 media_type
          then mret (StreamingResponse.Build content media name)
          else unhandled
      | _ => unhandled
      end
  end.

(** [GET /api/documents/{doc_id}/download] *)
Definition download_document_file (doc_id : string) : M StreamingResponse.t :=
  h ← db;
  if h is None then raise 500 "Database not configured" else
  match ObjectId_of_str doc_id with
  | None => raise 400 "Invalid document id"
  | Some oid =>
      d ← find_one DOC_COLLECTION (VOid oid);
      match d with
      | None => raise 404 "File not found for this document"
      | Some d =>
          if negb (truthy (get d "file_blob_id"))
          then raise 404 "File not found for this document"
          else
            blob ← find_one FILE_COLLECTION (get d "file_blob_id");
            match blob with
            | None => raise 404 "File blob missing"
            | Some blob =>
                content ← blob_content blob;
                streaming_response content
                  (py_or (get blob "content_type") (VStr "application/octet-stream"))
                  (get_or blob "filename" (VStr "file"))
            end
      end
  end.

(** The loop of [list_documents] over the cursor. *)
Fixpoint document_out_all (docs : list doc) : M (list DocumentOut.t) :=
  match docs with
  | [] => mret []
  | d :: rest =>
      o ← document_out d;
      os ← document_out_all rest;
      mret (o :: os)
  end.

(** The [filter_query] of [list_documents]: empty unless [q] is given and
    not empty. *)
Definition filter_query (q : option string) : query :=
  match q with
  | Some s => if Text.nonempty s then TitleOrTags s else MatchAll
  | None => MatchAll
  end.

(** [GET /api/documents?q=] *)
Definition list_documents (e : Engine) (q : option string)
    : M (list DocumentOut.t) :=
  h ← db;
  if h is None then raise 500 "Database not configured" else
  docs ← find_sorted e DOC_COLLECTION (filter_query q);
  document_out_all docs.

(** [PUT /api/documents/{doc_id}] *)
Definition update_document (doc_id : string) (payload : DocumentCreate.t)
    : M DocumentOut.t :=
  h ← db;
  if h is None then raise 500 "Database not configured" else
  match ObjectId_of_str doc_id with
  | None => raise 400 "Invalid document id"
  | Some oid =>
      let update : doc :=
        {[ "title" := VStr (DocumentCreate.title payload);
           "tags" := tags_or_empty payload;
           "notes" := of_opt_str (DocumentCreate.notes payload) ]} in
      update_one DOC_COLLECTION (VOid oid) update;;
      d ← find_one DOC_COLLECTION (VOid oid);
      match d with
      | None => raise 404 "Document not found"
      | Some d => document_out d
      end
  end.

(** [DELETE /api/documents/{doc_id}] *)
Definition delete_document (doc_id : string) : M doc :=
  h ← db;
  if h is None then raise 500 "Database not configured" else
  match ObjectId_of_str doc_id with
  | None => raise 400 "Invalid document id"
  | Some oid =>
      d ← find_one DOC_COLLECTION (VOid oid);
      match d with
      | None => raise 404 "Document not found"
      | Some d =>
          (if truthy (get d "file_blob_id")
           then delete_one FILE_COLLECTION (get d "file_blob_id")
           else mret tt);;
          delete_one DOC_COLLECTION (VOid oid);;
          mret {[ "status" := VStr "deleted" ]}
      end
  end.

(** ** Vocabulary of the statements *)

(** The representation of the document stored under [o] with fields [x]. *)
Definition stored_out (o : ObjectId) (x : doc) : DocumentOut.t :=
  DocumentOut.Build (str_of_ObjectId o)
    (get x "title")
    (get_or x "tags" (VList []))
    (get x "notes")
    (get x "mime_type")
    (get x "size")
    (get x "text_preview").

Definition entry_out (p : ObjectId * doc) : DocumentOut.t :=
  stored_out (fst p) (snd p).

(** The record an upload leaves in the blob collection. *)
Definition stored_blob (oid : ObjectId) (now : Z) (file : UploadFile.t) : doc :=
  <["created_at" := VDate now]>
    {[ "doc_id" := VOid oid;
       "filename" := of_opt_str (UploadFile.filename file);
       "content_type" := of_opt_str (UploadFile.content_type file);
       "size" := VInt (len (UploadFile.read file));
       "content" := VBytes (UploadFile.read file) ]}.

(** The preview an upload computes. *)
Definition preview_of (file : UploadFile.t) : value :=
  VStr (Utf8.decode_ignore (take 1024 (UploadFile.read file))).

(** The fields of a document after an upload, from its fields [x] before. *)
Definition uploaded_doc (blob_id : ObjectId) (file : UploadFile.t) (x : doc) : doc :=
  let x1 : doc :=
    {[ "mime_type" := of_opt_str (UploadFile.content_type file);
       "size" := VInt (len (UploadFile.read file));
       "file_blob_id" := VOid blob_id ]} ∪ x in
  if wants_preview (UploadFile.content_type file)
  then {[ "text_preview" := preview_of file ]} ∪ x1
  else x1.

(** The database after a successful upload to the document [oid]. *)
Definition uploaded_db (blob_id : ObjectId) (now : Z) (oid : ObjectId)
    (file : UploadFile.t) (d : database) : database :=
  let d1 := db_insert FILE_COLLECTION blob_id (stored_blob oid now file) d in
  let d2 :=
    db_set DOC_COLLECTION oid
      {[ "mime_type" := of_opt_str (UploadFile.content_type file);
         "size" := VInt (len (UploadFile.read file));
         "file_blob_id" := VOid blob_id ]} d1 in
  if wants_preview (UploadFile.content_type file)
  then db_set DOC_COLLECTION oid {[ "text_preview" := preview_of file ]} d2
  else d2.

(** The fields of a document after an update, from its fields [x] before. *)
Definition updated_doc (payload : DocumentCreate.t) (x : doc) : doc :=
  {[ "title" := VStr (DocumentCreate.title payload);
     "tags" := tags_or_empty payload;
     "notes" := of_opt_str (DocumentCreate.notes payload) ]} ∪ x.

(** The fields of a freshly created document. *)
Definition created_doc (now : Z) (payload : DocumentCreate.t) : doc :=
  <["created_at" := VDate now]>
    {[ "title" := VStr (DocumentCreate.title payload);
       "tags" := tags_or_empty payload;
       "notes" := of_opt_str (DocumentCreate.notes payload);
       "mime_type" := VNone;
       "size" := VNone;
       "text_preview" := VNone ]}.

(** A header can carry an optional [str]: absent, or made of characters
    up to U+00FF. *)
Definition header_safe (s : option string) : bool :=
  match s with
  | Some t => Text.latin1 t
  | None => true
  end.

(** [q] occurs in [s], ignoring case: the characters of [q], folded,
    are consecutive among the characters of [s], folded. *)
Definition contains_ci (e : Engine) (q s : string) : bool :=
  Text.cp_contains (Regex.casefold (case_table e) <$> Text.codepoints q)
                   (Regex.casefold (case_table e) <$> Text.codepoints s).

(** [q] occurs in a text value, ignoring case. *)
Definition text_contains (e : Engine) (q : string) (v : value) : bool :=
  match v with
  | VStr s => contains_ci e q s
  | _ => false
  end.

(** The title contains [q].  A list-valued title, which the handlers never
    store and the database matches through its elements, counts when one
    of its elements contains [q]. *)
Definition title_contains (e : Engine) (q : string) (x : doc) : bool :=
  match x !! "title" with
  | Some (VStr s) => contains_ci e q s
  | Some (VList l) => existsb (text_contains e q) l
  | _ => false
  end.

Definition some_tag_contains (e : Engine) (q : string) (x : doc) : bool :=
  match x !! "tags" with
  | Some (VList l) => existsb (text_contains e q) l
  | _ => false
  end.

Definition title_or_tag_contains (e : Engine) (q : string) (x : doc) : bool :=
  title_contains e q x || some_tag_contains e q x.

(** [not_older x y]: [x] was created no earlier than [y].  A document
    without a creation time counts as older than every dated one. *)
Definition not_older (x y : doc) : Prop :=
  match x !! "created_at", y !! "created_at" with
  | Some (VDate t), Some (VDate u) => (u <= t)%Z
  | Some (VDate _), _ => True
  | _, Some (VDate _) => False
  | _, _ => True
  end.

(** Descending creation time: every entry was created no earlier than
    each entry after it. *)
Definition newest_first (L : list (ObjectId * doc)) : Prop :=
  StronglySorted (fun p1 p2 => not_older (snd p1) (snd p2)) L.

(** Sample data for the examples. *)
Module Sample.

Definition id_a : string := "0123456789abcdef01234567".
Definition oid_a : ObjectId := exist _ id_a I.
Definition oid_b : ObjectId := exist _ "aaaaaaaaaaaaaaaaaaaaaaaa" I.
Definition oid_c : ObjectId := exist _ "cccccccccccccccccccccccc" I.

Definition invoice : DocumentCreate.t :=
  DocumentCreate.Build "Invoice #2" (Some ["a"; "b"]) None.
Definition receipt : DocumentCreate.t :=
  DocumentCreate.Build "Receipt" None (Some "paid").
Definition memo : DocumentCreate.t :=
  DocumentCreate.Build "Memo" (Some ["Invoices"]) None.
(** A title that is the Kelvin sign, U+212A. *)
Definition kelvin : DocumentCreate.t :=
  DocumentCreate.Build (string_of_list_byte [xe2; x84; xaa]) None None.

(** A regular-expression library that folds the Kelvin sign and the
    capital letters of Latin-1 as Unicode does, and takes no pattern
    beyond those modelled in [Regex]. *)
Definition engine : Engine :=
  Build_Engine
    (fun c =>
       if (c =? 8490)%N then 107%N
       else if (192 <=? c)%N && (c <=? 222)%N && negb (c =? 215)%N then (c + 32)%N
       else c)
    (fun _ => Invalid).

Definition hello_txt : UploadFile.t :=
  UploadFile.Build (Some "hello.txt") (Some "text/plain")
    (list_byte_of_string "hello world").
Definition raw_bin : UploadFile.t :=
  UploadFile.Build (Some "raw.bin") (Some "application/octet-stream")
    [x00; xff; xfe; x41].
Definition untyped : UploadFile.t :=
  UploadFile.Build (Some "scan") None [x25; x50; x44; x46].
(** A file name of two kanji, U+65E5 and U+672C, and [.txt]. *)
Definition kanji_name : string :=
  string_of_list_byte [xe6; x97; xa5; xe6; x9c; xac; x2e; x74; x78; x74].
Definition kanji_txt : UploadFile.t :=
  UploadFile.Build (Some kanji_name) (Some "text/plain")
    (list_byte_of_string "hello world").

(** The database after creating one document. *)
Definition db_invoice : database :=
  db_insert DOC_COLLECTION oid_a (created_doc 1 invoice) ∅.
Definition db_receipt : database :=
  db_insert DOC_COLLECTION oid_a (created_doc 1 receipt) ∅.
(** Three documents, created at times 1, 2 and 3. *)
Definition db_three : database :=
  db_insert DOC_COLLECTION oid_b (created_doc 3 receipt)
    (db_insert DOC_COLLECTION oid_c (created_doc 2 memo) db_invoice).
Definition db_kelvin : database :=
  db_insert DOC_COLLECTION oid_a (created_doc 1 kelvin) ∅.

(** Handles reached through the handlers from an empty database. *)
Definition h_created : option database :=
  snd (create_document_metadata oid_a 1 invoice (Some ∅)).
Definition h_text : option database :=
  snd (upload_document_file oid_b 2 id_a hello_txt h_created).
Definition h_untyped : option database :=
  snd (upload_document_file oid_b 2 id_a untyped h_created).
Definition h_receipt : option database :=
  snd (create_document_metadata oid_a 1 receipt (Some ∅)).

End Sample.

(** ** Further vocabulary *)

(** Referential integrity between the two collections: every blob
    reference held by a document names a stored blob that points back at
    the document and carries bytes. *)
Definition referential (d : database) : Prop :=
  forall (o : ObjectId) (x : doc) (v : value),
    coll d DOC_COLLECTION !! o = Some x ->
    x !! "file_blob_id" = Some v ->
    exists (b : ObjectId) (blob : doc) (content : list byte),
      v = VOid b /\
      coll d FILE_COLLECTION !! b = Some blob /\
      blob !! "doc_id" = Some (VOid o) /\
      blob !! "content" = Some (VBytes content).

Definition referential_handle (h : option database) : Prop :=
  match h with
  | Some d => referential d
  | None => True
  end.

(** Every stored blob is the record of an upload. *)
Definition uploaded_blobs (d : database) : Prop :=
  forall (b : ObjectId) (blob : doc),
    coll d FILE_COLLECTION !! b = Some blob ->
    exists (oid : ObjectId) (now : Z) (file : UploadFile.t),
      blob = stored_blob oid now file.

(** Further sample data. *)
Module Scenario.

(** A database, not reachable through the handlers, in which the one
    document refers to a blob that is not stored. *)
Definition db_dangling : database :=
  db_insert DOC_COLLECTION Sample.oid_a
    (<["file_blob_id" := VOid Sample.oid_b]> (created_doc 1 Sample.invoice)) ∅.

(** The sample invoice with [hello.txt] attached. *)
Definition db_attached : database :=
  uploaded_db Sample.oid_b 2 Sample.oid_a Sample.hello_txt Sample.db_invoice.

Definition renamed : DocumentCreate.t :=
  DocumentCreate.Build "Invoice #3" (Some ["x"]) (Some "checked").

End Scenario.

(** The handles the six data routes can produce from an empty database,
    whatever requests are made and whatever identifiers and times the
    insertions are given. *)
Inductive reachable : option database -> Prop :=
  | reach_start : reachable (Some ∅)
  | reach_create h new_id now payload :
      reachable h ->
      reachable (snd (create_document_metadata new_id now payload h))
  | reach_upload h new_id now doc_id file :
      reachable h ->
      reachable (snd (upload_document_file new_id now doc_id file h))
  | reach_download h doc_id :
      reachable h ->
      reachable (snd (download_document_file doc_id h))
  | reach_list h e q :
      reachable h ->
      reachable (snd (list_documents e q h))
  | reach_update h doc_id payload :
      reachable h ->
      reachable (snd (update_document doc_id payload h))
  | reach_delete h doc_id :
      reachable h ->
      reachable (snd (delete_document doc_id h)).

(** * Properties *)

(** ** Identifiers *)

Lemma lower_hex_is_hex c : Oid.is_lower_hex c = true -> Oid.is_hex c = true.
Proof.
  unfold Oid.is_lower_hex, Oid.is_hex. intros H.
  apply orb_true_iff in H. destruct H as [H|H]; rewrite H; rewrite ?orb_true_r; reflexivity.
Qed.

Lemma lower_hex_fixed c : Oid.is_lower_hex c = true -> Text.lower_ascii c = c.
Proof.
  unfold Oid.is_lower_hex, Text.lower_ascii, Text.in_range. intros H.
  destruct (_ && _)%N eqn:E at 1; [|reflexivity].
  exfalso. rewrite !orb_true_iff, !andb_true_iff, !N.leb_le in *. lia.
Qed.

Lemma hex_lower_is_lower_hex c :
  Oid.is_hex c = true -> Oid.is_lower_hex (Text.lower_ascii c) = true.
Proof.
  destruct c as [[] [] [] [] [] [] [] []]; vm_compute; intros H;
    (reflexivity || discriminate H).
Qed.

Lemma canonical_lower s :
  Text.all Oid.is_lower_hex s = true ->
  Text.lower s = s /\ Text.all Oid.is_hex s = true.
Proof.
  induction s as [|c s IH]; simpl; [done|].
  intros [Hc Hs]%andb_true_iff. destruct (IH Hs) as [-> ->].
  by rewrite lower_hex_fixed, lower_hex_is_hex.
Qed.

Lemma length_lower s : String.length (Text.lower s) = String.length s.
Proof. induction s; simpl; congruence. Qed.

Lemma hex_is_no_space c : Oid.is_hex c = true -> Oid.is_space c = false.
Proof.
  destruct c as [[] [] [] [] [] [] [] []]; vm_compute; intros H;
    (reflexivity || discriminate H).
Qed.

(** Without white space, [bytes.fromhex] reads the digits in pairs. *)
Lemma fromhex_hex (n : nat) (s : string) :
  String.length s = (2 * n)%nat ->
  Text.all Oid.is_hex s = true ->
  Oid.fromhex s = Some (Text.lower s).
Proof.
  revert s. induction n as [|n IH]; intros s Hlen Hall.
  - by destruct s.
  - destruct s as [|c [|c' s]]; simpl in Hlen; try lia.
    simpl in Hall. apply andb_true_iff in Hall as [Hc Hall].
    apply andb_true_iff in Hall as [Hc' Hall].
    cbn [Oid.fromhex Text.lower]. rewrite (hex_is_no_space c Hc), Hc, Hc'.
    rewrite (IH s); [done|lia|done].
Qed.

(** Parsing prints back: [ObjectId(str(o)) == o]. *)
Lemma ObjectId_of_str_of_ObjectId (o : ObjectId) :
  ObjectId_of_str (str_of_ObjectId o) = Some (Id o).
Proof.
  destruct o as [s H]. unfold ObjectId_of_str, str_of_ObjectId; simpl.
  pose proof H as H'. apply Is_true_true in H'.
  unfold Oid.canonical in H'. apply andb_true_iff in H' as [Hlen Hall].
  destruct (canonical_lower s Hall) as [Hl Hh].
  rewrite Hlen. rewrite (fromhex_hex 12 s); [|by apply Nat.eqb_eq in Hlen|done].
  rewrite Hl.
  destruct (decide _) as [H2|H2]; [|done].
  do 2 f_equal. by apply (sig_eq_pi _).
Qed.

(** The strings [ObjectId] rejects: those that are not 24 characters
    long, and those in which [bytes.fromhex] finds something other than
    pairs of hexadecimal digits and white space. *)
Lemma ObjectId_of_str_None s :
  ObjectId_of_str s = None <->
  String.length s ≠ 24%nat \/ Oid.fromhex s = None.
Proof.
  unfold ObjectId_of_str. destruct (String.length s =? 24)%nat eqn:E.
  - apply Nat.eqb_eq in E. destruct (Oid.fromhex s) as [hex|].
    + destruct (decide _); split; try done; intros [?|?]; done.
    + split; auto.
  - apply Nat.eqb_neq in E. split; auto.
Qed.

(** ** The database *)

Lemma coll_db_insert_same n o x d :
  coll (db_insert n o x d) n = <[o := x]> (coll d n).
Proof. unfold db_insert. unfold coll at 1. by rewrite lookup_insert_eq. Qed.

Lemma coll_db_insert_ne n n' o x d :
  n ≠ n' -> coll (db_insert n o x d) n' = coll d n'.
Proof. intros H. unfold db_insert. unfold coll at 1 3. by rewrite lookup_insert_ne. Qed.

Lemma coll_db_set_same n o f d x :
  coll d n !! o = Some x -> coll (db_set n o f d) n = <[o := f ∪ x]> (coll d n).
Proof. intros H. unfold db_set. rewrite H. unfold coll at 1. by rewrite lookup_insert_eq. Qed.

Lemma db_set_None n o f d : coll d n !! o = None -> db_set n o f d = d.
Proof. intros H. unfold db_set. by rewrite H. Qed.

Lemma coll_db_set_ne n n' o f d :
  n ≠ n' -> coll (db_set n o f d) n' = coll d n'.
Proof.
  intros H. unfold db_set. destruct (coll d n !! o); [|done].
  unfold coll at 1 3. by rewrite lookup_insert_ne.
Qed.

Lemma coll_db_delete_same n o d :
  coll (db_delete n o d) n = delete o (coll d n).
Proof.
  unfold db_delete. destruct (coll d n !! o) eqn:E.
  - unfold coll at 1. by rewrite lookup_insert_eq.
  - symmetry. by apply delete_id.
Qed.

Lemma coll_db_delete_ne n n' o d :
  n ≠ n' -> coll (db_delete n o d) n' = coll d n'.
Proof.
  intros H. unfold db_delete. destruct (coll d n !! o); [|done].
  unfold coll at 1 3. by rewrite lookup_insert_ne.
Qed.

Lemma collections_differ : DOC_COLLECTION ≠ FILE_COLLECTION.
Proof. done. Qed.

Lemma collections_differ' : FILE_COLLECTION ≠ DOC_COLLECTION.
Proof. done. Qed.

(** ** Running handlers *)

(** Symbolic execution of a handler: unfolds the monad and the database
    primitives, and leaves the finite-map operations alone. *)
Ltac exec :=
  cbv beta iota delta
    [mbind M_bind mret M_ret db raise unhandled not_modelled with_db
     find_one update_one delete_one insert_one create_document lookup_id
     document_out_opt].

(** Looking a field up in a dictionary literal. *)
Ltac fields :=
  repeat first
    [ rewrite lookup_insert_eq
    | rewrite lookup_insert_ne by done
    | rewrite lookup_singleton_eq
    | rewrite lookup_singleton_ne by done ].

(** A run is determined by its result and the handle it leaves. *)
Lemma run_eq {A} (r : result A * option database) (a : result A) :
  fst r = a -> r = (a, snd r).
Proof. destruct r; simpl; congruence. Qed.

Lemma get_with_id o x k : k ≠ "_id" -> get (with_id o x) k = get x k.
Proof. intros H. unfold get, with_id. by rewrite lookup_insert_ne. Qed.

Lemma get_or_with_id o x k v : k ≠ "_id" -> get_or (with_id o x) k v = get_or x k v.
Proof. intros H. unfold get_or, with_id. by rewrite lookup_insert_ne. Qed.

Lemma lookup_with_id o x : with_id o x !! "_id" = Some (VOid o).
Proof. apply lookup_insert_eq. Qed.

Lemma lookup_with_id_ne o x k : k ≠ "_id" -> with_id o x !! k = x !! k.
Proof. intros H. unfold with_id. by rewrite lookup_insert_ne. Qed.

Lemma document_out_with_id o x h :
  document_out (with_id o x) h = (Ok (stored_out o x), h).
Proof.
  unfold document_out, str_id. rewrite lookup_with_id.
  exec. unfold stored_out.
  by rewrite !get_with_id, get_or_with_id.
Qed.

Lemma coll_empty n : coll ∅ n = ∅.
Proof. unfold coll. by rewrite lookup_empty. Qed.

Lemma lookup_coll_empty n (o : ObjectId) : coll ∅ n !! o = None.
Proof. rewrite coll_empty. apply lookup_empty. Qed.

Lemma sample_invoice_no_blob o :
  coll Sample.db_invoice FILE_COLLECTION !! o = None.
Proof.
  unfold Sample.db_invoice.
  rewrite coll_db_insert_ne by apply collections_differ.
  apply lookup_coll_empty.
Qed.

Lemma sample_invoice_stored :
  coll Sample.db_invoice DOC_COLLECTION !! Sample.oid_a
    = Some (created_doc 1 Sample.invoice).
Proof.
  unfold Sample.db_invoice. rewrite coll_db_insert_same. apply lookup_insert_eq.
Qed.

Lemma sample_parse : ObjectId_of_str Sample.id_a = Some (Id Sample.oid_a).
Proof. exact (ObjectId_of_str_of_ObjectId Sample.oid_a). Qed.

(** ** Malformed identifiers *)

(** C4, as the claim states it, fails: with the database not configured the
    guard at the head of every handler answers 500 before the identifier
    is looked at. *)
Lemma malformed_id_without_db_is_500 :
  ObjectId_of_str "not-an-id" = None /\
  upload_document_file Sample.oid_b 0 "not-an-id" Sample.hello_txt None
    = (HTTPException 500 "Database not configured", None) /\
  download_document_file "not-an-id" None
    = (HTTPException 500 "Database not configured", None) /\
  update_document "not-an-id" Sample.invoice None
    = (HTTPException 500 "Database not configured", None) /\
  delete_document "not-an-id" None
    = (HTTPException 500 "Database not configured", None).
Proof. repeat split; reflexivity. Qed.

(** C4 (amended): when the database is configured, an identifier that does
    not parse makes upload, download, update and delete answer 400, and
    the database is left as it was. *)
Theorem malformed_id_is_400 (doc_id : string) (d : database)
    (new_id : ObjectId) (now : Z) (file : UploadFile.t) (payload : DocumentCreate.t) :
  ObjectId_of_str doc_id = None ->
  upload_document_file new_id now doc_id file (Some d)
    = (HTTPException 400 "Invalid document id", Some d) /\
  download_document_file doc_id (Some d)
    = (HTTPException 400 "Invalid document id", Some d) /\
  update_document doc_id payload (Some d)
    = (HTTPException 400 "Invalid document id", Some d) /\
  delete_document doc_id (Some d)
    = (HTTPException 400 "Invalid document id", Some d).
Proof.
  intros H.
  unfold upload_document_file, download_document_file, update_document,
    delete_document.
  rewrite H. repeat split; reflexivity.
Qed.

(** C4 (amended) at work: updating under a malformed identifier, with one
    document stored. *)
Lemma malformed_id_is_400_witness :
  update_document "not-an-id" Sample.invoice (Some Sample.db_invoice)
    = (HTTPException 400 "Invalid document id", Some Sample.db_invoice).
Proof.
  apply (malformed_id_is_400 "not-an-id" Sample.db_invoice Sample.oid_b 0
           Sample.hello_txt Sample.invoice).
  reflexivity.
Defined.

(** An identifier in which [bytes.fromhex] finds fewer than twelve bytes
    is no error for [ObjectId]: white space between the digits is
    skipped.  Such an identifier finds nothing, and the four routes
    answer 404. *)
Lemma short_id_is_404 (doc_id hex : string) (d : database)
    (new_id : ObjectId) (now : Z) (file : UploadFile.t) (payload : DocumentCreate.t) :
  ObjectId_of_str doc_id = Some (ShortId hex) ->
  upload_document_file new_id now doc_id file (Some d)
    = (HTTPException 404 "Document not found", Some d) /\
  download_document_file doc_id (Some d)
    = (HTTPException 404 "File not found for this document", Some d) /\
  update_document doc_id payload (Some d)
    = (HTTPException 404 "Document not found", Some d) /\
  delete_document doc_id (Some d)
    = (HTTPException 404 "Document not found", Some d).
Proof.
  intros H.
  unfold upload_document_file, download_document_file, update_document,
    delete_document.
  rewrite H. repeat split; reflexivity.
Qed.

Example spaced_id_is_404 :
  ObjectId_of_str "0123456789abcdef012345  " = Some (ShortId "0123456789abcdef012345") /\
  fst (update_document "0123456789abcdef012345  " Sample.invoice (Some Sample.db_invoice))
    = HTTPException 404 "Document not found".
Proof. vm_compute. split; reflexivity. Qed.

(** The identifiers [ObjectId] takes as twelve bytes are read without
    regard to the case of the digits. *)
Example capital_digits_parse :
  match ObjectId_of_str "0123456789ABCDEF01234567" with
  | Some (Id o) => Some (str_of_ObjectId o)
  | _ => None
  end = Some Sample.id_a.
Proof. vm_compute. reflexivity. Qed.

(** ** Update *)

Lemma update_document_found doc_id payload d oid x :
  ObjectId_of_str doc_id = Some (Id oid) ->
  coll d DOC_COLLECTION !! oid = Some x ->
  update_document doc_id payload (Some d)
    = (Ok (stored_out oid (updated_doc payload x)),
       Some (db_set DOC_COLLECTION oid
               {[ "title" := VStr (DocumentCreate.title payload);
                  "tags" := tags_or_empty payload;
                  "notes" := of_opt_str (DocumentCreate.notes payload) ]} d)).
Proof.
  intros Hp Hx. unfold update_document. rewrite Hp. exec.
  rewrite (coll_db_set_same _ _ _ _ _ Hx), lookup_insert_eq. simpl.
  by rewrite document_out_with_id.
Qed.

(** C10: an update whose well-formed identifier matches no stored document
    answers 404 and leaves the whole database, hence every stored
    document, as it was. *)
Theorem update_missing_is_404_and_writes_nothing
    (doc_id : string) (payload : DocumentCreate.t) (d : database) (oid : ObjectId) :
  ObjectId_of_str doc_id = Some (Id oid) ->
  coll d DOC_COLLECTION !! oid = None ->
  update_document doc_id payload (Some d)
    = (HTTPException 404 "Document not found", Some d).
Proof.
  intros Hp Hn. unfold update_document. rewrite Hp. exec.
  rewrite (db_set_None _ _ _ _ Hn), Hn. reflexivity.
Qed.

(** C10 at work: updating a well-formed identifier in an empty database. *)
Lemma update_missing_witness :
  update_document Sample.id_a Sample.invoice (Some ∅)
    = (HTTPException 404 "Document not found", Some ∅).
Proof.
  apply (update_missing_is_404_and_writes_nothing Sample.id_a Sample.invoice ∅ Sample.oid_a).
  - exact sample_parse.
  - apply lookup_coll_empty.
Defined.

Lemma updated_doc_frame payload x k :
  k ≠ "title" -> k ≠ "tags" -> k ≠ "notes" ->
  updated_doc payload x !! k = x !! k.
Proof.
  intros H1 H2 H3. unfold updated_doc.
  apply lookup_union_r.
  by rewrite !lookup_insert_ne, lookup_singleton_ne.
Qed.

(** C6: a successful update of an existing document writes the payload's
    title, tags (the whole list, an absent one as the empty list) and
    notes, leaves every other field of the document as it was, in
    particular [mime_type], [size], [text_preview] and [file_blob_id],
    and touches no other document and no blob. *)
Theorem update_replaces_title_tags_notes_only
    (doc_id : string) (payload : DocumentCreate.t) (d : database)
    (oid : ObjectId) (x : doc) :
  ObjectId_of_str doc_id = Some (Id oid) ->
  coll d DOC_COLLECTION !! oid = Some x ->
  exists (d' : database) (x' : doc),
    update_document doc_id payload (Some d) = (Ok (stored_out oid x'), Some d') /\
    coll d' DOC_COLLECTION !! oid = Some x' /\
    x' !! "title" = Some (VStr (DocumentCreate.title payload)) /\
    x' !! "tags" = Some (VList (VStr <$> default [] (DocumentCreate.tags payload))) /\
    x' !! "notes" = Some (of_opt_str (DocumentCreate.notes payload)) /\
    x' !! "mime_type" = x !! "mime_type" /\
    x' !! "size" = x !! "size" /\
    x' !! "text_preview" = x !! "text_preview" /\
    x' !! "file_blob_id" = x !! "file_blob_id" /\
    (forall k, k ≠ "title" -> k ≠ "tags" -> k ≠ "notes" -> x' !! k = x !! k) /\
    (forall o, o ≠ oid -> coll d' DOC_COLLECTION !! o = coll d DOC_COLLECTION !! o) /\
    coll d' FILE_COLLECTION = coll d FILE_COLLECTION.
Proof.
  intros Hp Hx. eexists _, (updated_doc payload x).
  split; [by apply update_document_found|].
  rewrite (coll_db_set_same _ _ _ _ _ Hx), lookup_insert_eq.
  split; [done|].
  split.
  { unfold updated_doc. erewrite lookup_union_Some_l; [reflexivity|].
    by rewrite lookup_insert_eq. }
  split.
  { unfold updated_doc, tags_or_empty.
    erewrite lookup_union_Some_l; [reflexivity|].
    rewrite lookup_insert_ne by done. rewrite lookup_insert_eq.
    by destruct (DocumentCreate.tags payload) as [[|t ts]|]. }
  split.
  { unfold updated_doc. erewrite lookup_union_Some_l; [reflexivity|].
    by rewrite !lookup_insert_ne, lookup_singleton_eq. }
  repeat split; try (by apply updated_doc_frame).
  - intros o Ho. by rewrite lookup_insert_ne.
  - by apply coll_db_set_ne.
Qed.

(** C6 at work: a document tagged [a], [b] is updated with the tag list
    [x] and ends up tagged [x] only. *)
Lemma update_replaces_witness :
  exists (d' : database) (x' : doc),
    update_document Sample.id_a (DocumentCreate.Build "Invoice #3" (Some ["x"]) None)
      (Some Sample.db_invoice) = (Ok (stored_out Sample.oid_a x'), Some d') /\
    x' !! "tags" = Some (VList [VStr "x"]).
Proof.
  destruct (update_replaces_title_tags_notes_only Sample.id_a
              (DocumentCreate.Build "Invoice #3" (Some ["x"]) None)
              Sample.db_invoice Sample.oid_a (created_doc 1 Sample.invoice))
    as (d' & x' & Hrun & _ & _ & Htags & _).
  - exact sample_parse.
  - exact sample_invoice_stored.
  - exists d', x'. split; [exact Hrun | exact Htags].
Defined.

(** ** Delete *)

(** C7: deleting an existing document that refers to a blob removes the
    document and that blob, touches nothing else, and a download for the
    same identifier then answers 404. *)
Theorem delete_removes_document_and_blob
    (doc_id : string) (d : database) (oid b : ObjectId) (x : doc) :
  ObjectId_of_str doc_id = Some (Id oid) ->
  coll d DOC_COLLECTION !! oid = Some x ->
  x !! "file_blob_id" = Some (VOid b) ->
  exists d' : database,
    delete_document doc_id (Some d) = (Ok {[ "status" := VStr "deleted" ]}, Some d') /\
    coll d' DOC_COLLECTION = delete oid (coll d DOC_COLLECTION) /\
    coll d' FILE_COLLECTION = delete b (coll d FILE_COLLECTION) /\
    coll d' DOC_COLLECTION !! oid = None /\
    coll d' FILE_COLLECTION !! b = None /\
    download_document_file doc_id (Some d')
      = (HTTPException 404 "File not found for this document", Some d').
Proof.
  intros Hp Hx Hb.
  exists (db_delete DOC_COLLECTION oid (db_delete FILE_COLLECTION b d)).
  assert (Hget : get (with_id oid x) "file_blob_id" = VOid b).
  { rewrite get_with_id by done. unfold get. by rewrite Hb. }
  assert (Hdoc : coll (db_delete DOC_COLLECTION oid (db_delete FILE_COLLECTION b d))
                   DOC_COLLECTION = delete oid (coll d DOC_COLLECTION)).
  { rewrite coll_db_delete_same. f_equal.
    apply coll_db_delete_ne, collections_differ'. }
  assert (Hfile : coll (db_delete DOC_COLLECTION oid (db_delete FILE_COLLECTION b d))
                    FILE_COLLECTION = delete b (coll d FILE_COLLECTION)).
  { rewrite coll_db_delete_ne by apply collections_differ.
    apply coll_db_delete_same. }
  split.
  { unfold delete_document. rewrite Hp. exec. rewrite Hx. simpl.
    rewrite Hget. reflexivity. }
  split; [exact Hdoc|]. split; [exact Hfile|].
  split; [rewrite Hdoc; apply lookup_delete_eq|].
  split; [rewrite Hfile; apply lookup_delete_eq|].
  unfold download_document_file. rewrite Hp. exec.
  rewrite Hdoc, lookup_delete_eq. reflexivity.
Qed.

(** ** Create *)

(** C8: with the generated identifier unused, creating a document stores
    the payload's title, tags (an absent list as the empty one) and notes
    with the file fields null and no blob reference, returns them under
    the new identifier, and fetching the document by the returned
    identifier gives the same representation. *)
Theorem create_stores_and_returns_payload
    (new_id : ObjectId) (now : Z) (payload : DocumentCreate.t) (d : database) :
  coll d DOC_COLLECTION !! new_id = None ->
  let out :=
    DocumentOut.Build (str_of_ObjectId new_id)
      (VStr (DocumentCreate.title payload))
      (VList (VStr <$> default [] (DocumentCreate.tags payload)))
      (of_opt_str (DocumentCreate.notes payload))
      VNone VNone VNone in
  exists (d' : database) (x : doc),
    create_document_metadata new_id now payload (Some d) = (Ok out, Some d') /\
    coll d' DOC_COLLECTION = <[new_id := x]> (coll d DOC_COLLECTION) /\
    x !! "title" = Some (VStr (DocumentCreate.title payload)) /\
    x !! "tags" = Some (VList (VStr <$> default [] (DocumentCreate.tags payload))) /\
    x !! "notes" = Some (of_opt_str (DocumentCreate.notes payload)) /\
    x !! "mime_type" = Some VNone /\
    x !! "size" = Some VNone /\
    x !! "text_preview" = Some VNone /\
    x !! "file_blob_id" = None /\
    ObjectId_of_str (DocumentOut.id out) = Some (Id new_id) /\
    (fetched ← find_one DOC_COLLECTION (VOid new_id); document_out_opt fetched) (Some d')
      = (Ok out, Some d').
Proof.
  intros Hfresh out.
  exists (db_insert DOC_COLLECTION new_id (created_doc now payload) d),
    (created_doc now payload).
  assert (Htags : tags_or_empty payload
                  = VList (VStr <$> default [] (DocumentCreate.tags payload))).
  { unfold tags_or_empty. by destruct (DocumentCreate.tags payload) as [[|t ts]|]. }
  assert (Hout : stored_out new_id (created_doc now payload) = out).
  { unfold stored_out, out, created_doc, get, get_or.
    fields. simpl. by rewrite Htags. }
  assert (Hfetch : (fetched ← find_one DOC_COLLECTION (VOid new_id);
                    document_out_opt fetched)
                     (Some (db_insert DOC_COLLECTION new_id (created_doc now payload) d))
                   = (Ok out, Some (db_insert DOC_COLLECTION new_id (created_doc now payload) d))).
  { exec. rewrite coll_db_insert_same, lookup_insert_eq. simpl.
    by rewrite document_out_with_id, Hout. }
  split.
  { unfold create_document_metadata. exec. rewrite Hfresh.
    rewrite ObjectId_of_str_of_ObjectId.
    exact Hfetch. }
  split; [apply coll_db_insert_same|].
  unfold created_doc. rewrite <- Htags.
  repeat split; try (by fields).
  apply ObjectId_of_str_of_ObjectId.
Qed.

(** C8 at work: creating the sample invoice in an empty database. *)
Lemma create_stores_witness :
  exists (d' : database) (x : doc),
    create_document_metadata Sample.oid_a 1 Sample.invoice (Some ∅)
      = (Ok (DocumentOut.Build Sample.id_a (VStr "Invoice #2")
               (VList [VStr "a"; VStr "b"]) VNone VNone VNone VNone), Some d') /\
    coll d' DOC_COLLECTION !! Sample.oid_a = Some x /\
    x !! "file_blob_id" = None.
Proof.
  destruct (create_stores_and_returns_payload Sample.oid_a 1 Sample.invoice ∅)
    as (d' & x & Hrun & Hcoll & _ & _ & _ & _ & _ & _ & Hblob & _).
  - apply lookup_coll_empty.
  - exists d', x. split; [exact Hrun|]. split; [|exact Hblob].
    rewrite Hcoll. apply lookup_insert_eq.
Defined.

(** ** Upload *)

Lemma coll_uploaded_db_doc blob_id now oid file d x :
  coll d DOC_COLLECTION !! oid = Some x ->
  coll (uploaded_db blob_id now oid file d) DOC_COLLECTION
    = <[oid := uploaded_doc blob_id file x]> (coll d DOC_COLLECTION).
Proof.
  intros Hx. unfold uploaded_db, uploaded_doc.
  set (d1 := db_insert _ _ _ d).
  assert (H1 : coll d1 DOC_COLLECTION = coll d DOC_COLLECTION)
    by apply coll_db_insert_ne, collections_differ'.
  assert (Hx1 : coll d1 DOC_COLLECTION !! oid = Some x) by by rewrite H1.
  destruct (wants_preview _).
  - erewrite coll_db_set_same.
    + rewrite (coll_db_set_same _ _ _ _ _ Hx1), H1. apply insert_insert_eq.
    + rewrite (coll_db_set_same _ _ _ _ _ Hx1). apply lookup_insert_eq.
  - by rewrite (coll_db_set_same _ _ _ _ _ Hx1), H1.
Qed.

Lemma coll_uploaded_db_file blob_id now oid file d :
  coll (uploaded_db blob_id now oid file d) FILE_COLLECTION
    = <[blob_id := stored_blob oid now file]> (coll d FILE_COLLECTION).
Proof.
  unfold uploaded_db. destruct (wants_preview _);
    rewrite ?coll_db_set_ne by apply collections_differ;
    apply coll_db_insert_same.
Qed.

(** An upload to an existing document, with the generated blob identifier
    unused, succeeds whatever the file holds. *)
Lemma upload_document_file_ok new_id now doc_id file d oid x :
  ObjectId_of_str doc_id = Some (Id oid) ->
  coll d DOC_COLLECTION !! oid = Some x ->
  coll d FILE_COLLECTION !! new_id = None ->
  upload_document_file new_id now doc_id file (Some d)
    = (Ok (stored_out oid (uploaded_doc new_id file x)),
       Some (uploaded_db new_id now oid file d)).
Proof.
  intros Hp Hx Hfresh.
  pose proof (coll_uploaded_db_doc new_id now oid file d x Hx) as Hfinal.
  revert Hfinal.
  unfold upload_document_file, uploaded_db, uploaded_doc, stored_blob, preview_of.
  rewrite Hp. exec. rewrite Hx. simpl. rewrite Hfresh.
  rewrite ObjectId_of_str_of_ObjectId.
  set (d1 := db_insert _ _ _ d).
  assert (Hx1 : coll d1 DOC_COLLECTION !! oid = Some x).
  { unfold d1. by rewrite coll_db_insert_ne by apply collections_differ'. }
  destruct (wants_preview _); intros Hfinal; rewrite Hfinal, lookup_insert_eq;
    simpl; by rewrite document_out_with_id.
Qed.

(** Those are the only uploads that succeed. *)
Lemma upload_document_file_ok_inv new_id now doc_id file h out h' :
  upload_document_file new_id now doc_id file h = (Ok out, h') ->
  exists (d : database) (oid : ObjectId) (x : doc),
    h = Some d /\
    ObjectId_of_str doc_id = Some (Id oid) /\
    coll d DOC_COLLECTION !! oid = Some x /\
    coll d FILE_COLLECTION !! new_id = None.
Proof.
  unfold upload_document_file. destruct h as [d|]; [|discriminate].
  destruct (ObjectId_of_str doc_id) as [[oid|hex]|] eqn:Hp; [|discriminate..].
  exec. destruct (coll d DOC_COLLECTION !! oid) as [x|] eqn:Hx; [|discriminate].
  simpl. destruct (coll d FILE_COLLECTION !! new_id) eqn:Hf; [discriminate|].
  intros _. by exists d, oid, x.
Qed.

Lemma uploaded_doc_blob_id blob_id file x :
  uploaded_doc blob_id file x !! "file_blob_id" = Some (VOid blob_id).
Proof.
  unfold uploaded_doc. destruct (wants_preview _).
  - rewrite lookup_union_r by by fields.
    erewrite lookup_union_Some_l; [reflexivity|]. by fields.
  - erewrite lookup_union_Some_l; [reflexivity|]. by fields.
Qed.

Lemma uploaded_doc_size blob_id file x :
  uploaded_doc blob_id file x !! "size" = Some (VInt (len (UploadFile.read file))).
Proof.
  unfold uploaded_doc. destruct (wants_preview _).
  - rewrite lookup_union_r by by fields.
    erewrite lookup_union_Some_l; [reflexivity|]. by fields.
  - erewrite lookup_union_Some_l; [reflexivity|]. by fields.
Qed.

Lemma uploaded_doc_mime_type blob_id file x :
  uploaded_doc blob_id file x !! "mime_type"
    = Some (of_opt_str (UploadFile.content_type file)).
Proof.
  unfold uploaded_doc. destruct (wants_preview _).
  - rewrite lookup_union_r by by fields.
    erewrite lookup_union_Some_l; [reflexivity|]. by fields.
  - erewrite lookup_union_Some_l; [reflexivity|]. by fields.
Qed.

Lemma uploaded_doc_preview blob_id file x :
  wants_preview (UploadFile.content_type file) = true ->
  uploaded_doc blob_id file x !! "text_preview" = Some (preview_of file).
Proof.
  intros H. unfold uploaded_doc. rewrite H.
  erewrite lookup_union_Some_l; [reflexivity|]. by fields.
Qed.

Lemma uploaded_doc_no_preview blob_id file x :
  wants_preview (UploadFile.content_type file) = false ->
  uploaded_doc blob_id file x !! "text_preview" = x !! "text_preview".
Proof.
  intros H. unfold uploaded_doc. rewrite H.
  rewrite lookup_union_r by by fields. reflexivity.
Qed.

(** C7 at work: deleting the sample invoice after a file was uploaded to
    it. *)
Lemma delete_removes_witness :
  exists d' : database,
    delete_document Sample.id_a (Some (uploaded_db Sample.oid_b 2 Sample.oid_a
                                         Sample.hello_txt Sample.db_invoice))
      = (Ok {[ "status" := VStr "deleted" ]}, Some d') /\
    coll d' DOC_COLLECTION !! Sample.oid_a = None /\
    coll d' FILE_COLLECTION !! Sample.oid_b = None /\
    download_document_file Sample.id_a (Some d')
      = (HTTPException 404 "File not found for this document", Some d').
Proof.
  destruct (delete_removes_document_and_blob Sample.id_a
              (uploaded_db Sample.oid_b 2 Sample.oid_a Sample.hello_txt Sample.db_invoice)
              Sample.oid_a Sample.oid_b
              (uploaded_doc Sample.oid_b Sample.hello_txt (created_doc 1 Sample.invoice)))
    as (d' & Hrun & _ & _ & Hdoc & Hblob & Hdown).
  - exact sample_parse.
  - rewrite (coll_uploaded_db_doc _ _ _ _ _ _ sample_invoice_stored).
    apply lookup_insert_eq.
  - apply uploaded_doc_blob_id.
  - exists d'. repeat split; assumption.
Defined.


(** C1, as the claim states it, fails on the media type: a file uploaded
    without a content type is stored with a null content type and served
    as [application/octet-stream]. *)
Lemma download_of_untyped_upload_serves_default_type :
  let up :=
    upload_document_file Sample.oid_b 2 Sample.id_a Sample.untyped Sample.h_created in
  let down := download_document_file Sample.id_a (snd up) in
  fst up
    = Ok (DocumentOut.Build Sample.id_a (VStr "Invoice #2")
            (VList [VStr "a"; VStr "b"]) VNone VNone (VInt 4) VNone) /\
  match snd up with
  | Some d => coll d FILE_COLLECTION !! Sample.oid_b ≫= (fun blob => blob !! "content_type")
  | None => None
  end = Some VNone /\
  fst down
    = Ok (StreamingResponse.Build [x25; x50; x44; x46]
            (VStr "application/octet-stream") (VStr "scan")).
Proof. vm_compute. repeat split; reflexivity. Qed.

(** C1 (amended): when the uploaded file name and content type, where
    given, consist of characters up to U+00FF, a download right after a
    successful upload returns exactly the uploaded bytes; the media type
    is the uploaded content type when one was supplied and is not empty,
    and [application/octet-stream] otherwise; the header carries the
    uploaded file name.  The blob stored by the upload holds these three
    values. *)
Theorem download_after_upload_returns_uploaded_bytes
    (new_id : ObjectId) (now : Z) (doc_id : string) (file : UploadFile.t)
    (h h' : option database) (out : DocumentOut.t) :
  upload_document_file new_id now doc_id file h = (Ok out, h') ->
  header_safe (UploadFile.filename file) = true ->
  header_safe (UploadFile.content_type file) = true ->
  download_document_file doc_id h'
    = (Ok (StreamingResponse.Build
             (UploadFile.read file)
             (match UploadFile.content_type file with
              | Some ct =>
                  if Text.nonempty ct then VStr ct else VStr "application/octet-stream"
              | None => VStr "application/octet-stream"
              end)
             (of_opt_str (UploadFile.filename file))), h') /\
  exists blob : doc,
    find_one FILE_COLLECTION (VOid new_id) h' = (Ok (Some blob), h') /\
    blob !! "content" = Some (VBytes (UploadFile.read file)) /\
    blob !! "content_type" = Some (of_opt_str (UploadFile.content_type file)) /\
    blob !! "filename" = Some (of_opt_str (UploadFile.filename file)).
Proof.
  intros Hup Hname Htype.
  destruct (upload_document_file_ok_inv _ _ _ _ _ _ _ Hup)
    as (d & oid & x & -> & Hp & Hx & Hfresh).
  rewrite (upload_document_file_ok _ now _ file _ _ _ Hp Hx Hfresh) in Hup.
  injection Hup as _ <-.
  pose proof (coll_uploaded_db_doc new_id now oid file d x Hx) as Hdoc.
  pose proof (coll_uploaded_db_file new_id now oid file d) as Hfile.
  assert (Hblob : get (with_id oid (uploaded_doc new_id file x)) "file_blob_id"
                  = VOid new_id).
  { rewrite get_with_id by done. unfold get. by rewrite uploaded_doc_blob_id. }
  split.
  - unfold download_document_file. rewrite Hp. exec.
    rewrite Hdoc, lookup_insert_eq. simpl. rewrite Hblob. simpl.
    rewrite Hfile, lookup_insert_eq. simpl.
    unfold blob_content, py_or, get, get_or, with_id, stored_blob. fields.
    exec. unfold streaming_response, header_text, header_safe in *.
    destruct (UploadFile.filename file) as [name|],
      (UploadFile.content_type file) as [[|c ct]|];
      cbn [of_opt_str truthy Text.nonempty default from_option id];
      rewrite ?Hname, ?Htype; reflexivity.
  - exists (with_id new_id (stored_blob oid now file)). split.
    + exec. by rewrite Hfile, lookup_insert_eq.
    + unfold with_id, stored_blob. by fields.
Qed.

(** C1 (amended) at work: [hello world] uploaded as [text/plain] comes
    back byte for byte, as [text/plain], named [hello.txt]. *)
Lemma download_after_upload_witness :
  download_document_file Sample.id_a Sample.h_text
    = (Ok (StreamingResponse.Build (list_byte_of_string "hello world")
             (VStr "text/plain") (VStr "hello.txt")), Sample.h_text).
Proof.
  apply (download_after_upload_returns_uploaded_bytes Sample.oid_b 2 Sample.id_a
           Sample.hello_txt Sample.h_created Sample.h_text
           (DocumentOut.Build Sample.id_a (VStr "Invoice #2")
              (VList [VStr "a"; VStr "b"]) VNone (VStr "text/plain") (VInt 11)
              (VStr "hello world"))).
  - apply run_eq. vm_compute. reflexivity.
  - reflexivity.
  - reflexivity.
Defined.

(** Outside that range the download fails: the response cannot carry the
    stored file name in its header.  The upload itself succeeds and the
    bytes are stored. *)
Example download_of_kanji_name_is_500 :
  let up :=
    upload_document_file Sample.oid_b 2 Sample.id_a Sample.kanji_txt Sample.h_created in
  Text.codepoints Sample.kanji_name = [26085; 26412; 46; 116; 120; 116]%N /\
  fst up
    = Ok (DocumentOut.Build Sample.id_a (VStr "Invoice #2")
            (VList [VStr "a"; VStr "b"]) VNone (VStr "text/plain") (VInt 11)
            (VStr "hello world")) /\
  fst (download_document_file Sample.id_a (snd up))
    = HTTPException 500 "Internal Server Error".
Proof. vm_compute. repeat split; reflexivity. Qed.

(** C2: a successful upload sets the document's [size] to the number of
    bytes uploaded and its [mime_type] to the content type the uploader
    supplied (null when none was), and the representation returned is
    that of the stored document, with these two values. *)
Theorem upload_sets_size_and_mime_type
    (new_id : ObjectId) (now : Z) (doc_id : string) (file : UploadFile.t)
    (h h' : option database) (out : DocumentOut.t) :
  upload_document_file new_id now doc_id file h = (Ok out, h') ->
  exists (oid : ObjectId) (d' : database) (x' : doc),
    ObjectId_of_str doc_id = Some (Id oid) /\
    h' = Some d' /\
    coll d' DOC_COLLECTION !! oid = Some x' /\
    x' !! "size" = Some (VInt (Z.of_nat (length (UploadFile.read file)))) /\
    x' !! "mime_type" = Some (of_opt_str (UploadFile.content_type file)) /\
    out = stored_out oid x' /\
    DocumentOut.size out = VInt (Z.of_nat (length (UploadFile.read file))) /\
    DocumentOut.mime_type out = of_opt_str (UploadFile.content_type file).
Proof.
  intros Hup.
  destruct (upload_document_file_ok_inv _ _ _ _ _ _ _ Hup)
    as (d & oid & x & -> & Hp & Hx & Hfresh).
  rewrite (upload_document_file_ok _ now _ file _ _ _ Hp Hx Hfresh) in Hup.
  injection Hup as <- <-.
  exists oid, (uploaded_db new_id now oid file d), (uploaded_doc new_id file x).
  split; [done|]. split; [done|].
  split; [by rewrite (coll_uploaded_db_doc _ _ _ _ _ _ Hx), lookup_insert_eq|].
  split; [apply uploaded_doc_size|].
  split; [apply uploaded_doc_mime_type|].
  split; [done|].
  unfold stored_out, get; simpl.
  by rewrite uploaded_doc_size, uploaded_doc_mime_type.
Qed.

(** C2 at work: the eleven bytes of [hello world] uploaded as
    [text/plain]. *)
Lemma upload_sets_size_witness :
  exists (oid : ObjectId) (d' : database) (x' : doc),
    ObjectId_of_str Sample.id_a = Some (Id oid) /\
    Sample.h_text = Some d' /\
    coll d' DOC_COLLECTION !! oid = Some x' /\
    x' !! "size" = Some (VInt 11) /\
    x' !! "mime_type" = Some (VStr "text/plain").
Proof.
  destruct (upload_sets_size_and_mime_type Sample.oid_b 2 Sample.id_a
              Sample.hello_txt Sample.h_created Sample.h_text
              (DocumentOut.Build Sample.id_a (VStr "Invoice #2")
                 (VList [VStr "a"; VStr "b"]) VNone (VStr "text/plain") (VInt 11)
                 (VStr "hello world")))
    as (oid & d' & x' & H1 & H2 & H3 & H4 & H5 & _).
  - apply run_eq. vm_compute. reflexivity.
  - exists oid, d', x'. repeat split; assumption.
Defined.

(** ** Text preview *)

Example wants_preview_text_plain : wants_preview (Some "text/plain") = true.
Proof. reflexivity. Qed.

Example wants_preview_pdf : wants_preview (Some "application/pdf") = true.
Proof. reflexivity. Qed.

Example wants_preview_octet_stream :
  wants_preview (Some "application/octet-stream") = false.
Proof. reflexivity. Qed.

Example decode_hello_world :
  Utf8.decode_ignore (take 1024 (list_byte_of_string "hello world")) = "hello world".
Proof. reflexivity. Qed.

(** Ill-formed bytes are dropped and the byte that broke a sequence is
    kept when it decodes by itself. *)
Example decode_drops_ill_formed :
  Utf8.decode_ignore [xe2; x28; xa1; x41; xc3; xa9; xf0; x9f]
    = string_of_list_byte [x28; x41; xc3; xa9].
Proof. reflexivity. Qed.

(** Decoding only drops bytes: what is kept is a subsequence of the data. *)
Lemma utf8_run_sublist (s : Utf8.state) (bs : list byte) :
  sublist (Utf8.run s bs) (Utf8.pending s ++ bs)%list.
Proof.
  revert s. induction bs as [|b t IH]; intros s; simpl.
  - apply sublist_nil_l.
  - assert (Hopen : forall l,
              sublist (let '(s', out) := Utf8.open_seq b in (out ++ Utf8.run s' t)%list)
                (l ++ b :: t)%list).
    { intros l. apply sublist_inserts_l. unfold Utf8.open_seq.
      repeat match goal with
             | |- context [if ?c then _ else _] => destruct c
             end;
        first [ apply sublist_skip, (IH Utf8.Idle)
              | apply sublist_cons, (IH Utf8.Idle)
              | apply (IH (Utf8.Pending [b] _ _ _)) ]. }
    destruct s as [|seen need lo hi]; simpl; [apply (Hopen [])|].
    destruct (Utf8.between lo hi (Utf8.bcode b)); [|apply Hopen].
    destruct need as [|[|k]]; [apply Hopen| |].
    + rewrite <- app_assoc. apply sublist_app; [done|].
      apply sublist_skip, (IH Utf8.Idle).
    + specialize (IH (Utf8.Pending (seen ++ [b]) (S k) 128 191)).
      simpl in IH. by rewrite <- app_assoc in IH.
Qed.

Lemma decode_ignore_sublist (bs : list byte) :
  exists kept : list byte,
    Utf8.decode_ignore bs = string_of_list_byte kept /\ sublist kept bs.
Proof. exists (Utf8.run Utf8.Idle bs). split; [done|]. apply (utf8_run_sublist Utf8.Idle). Qed.

(** ASCII data decodes to itself. *)
Lemma decode_ignore_ascii (bs : list byte) :
  Forall (fun b => (Utf8.bcode b < 128)%N) bs ->
  Utf8.decode_ignore bs = string_of_list_byte bs.
Proof.
  intros H. unfold Utf8.decode_ignore. f_equal.
  induction H as [|b t Hb _ IH]; simpl; [done|].
  unfold Utf8.open_seq. apply N.ltb_lt in Hb. rewrite Hb. simpl. by rewrite IH.
Qed.

(** What an upload does to the preview.  It succeeds whatever bytes the
    file holds.  Under a content type that contains [text] or is
    [application/pdf] the stored and returned [text_preview] is the
    lenient decoding of the first 1024 bytes.  Under any other content
    type the handler computes [text_preview = None] and then stores
    nothing: the document keeps the preview it had. *)
Lemma upload_and_preview
    (new_id : ObjectId) (now : Z) (doc_id : string) (file : UploadFile.t)
    (d : database) (oid : ObjectId) (x : doc) :
  ObjectId_of_str doc_id = Some (Id oid) ->
  coll d DOC_COLLECTION !! oid = Some x ->
  coll d FILE_COLLECTION !! new_id = None ->
  exists (out : DocumentOut.t) (d' : database) (x' : doc),
    upload_document_file new_id now doc_id file (Some d) = (Ok out, Some d') /\
    coll d' DOC_COLLECTION !! oid = Some x' /\
    DocumentOut.text_preview out = get x' "text_preview" /\
    (wants_preview (UploadFile.content_type file) = true ->
       x' !! "text_preview"
         = Some (VStr (Utf8.decode_ignore (take 1024 (UploadFile.read file))))) /\
    (wants_preview (UploadFile.content_type file) = false ->
       x' !! "text_preview" = x !! "text_preview").
Proof.
  intros Hp Hx Hfresh.
  exists (stored_out oid (uploaded_doc new_id file x)),
    (uploaded_db new_id now oid file d), (uploaded_doc new_id file x).
  split; [by apply upload_document_file_ok|].
  split; [by rewrite (coll_uploaded_db_doc _ _ _ _ _ _ Hx), lookup_insert_eq|].
  split; [done|].
  split; [apply uploaded_doc_preview|].
  intros Hw. by apply uploaded_doc_no_preview.
Qed.

(** The first example of the claim: [hello world] uploaded as
    [text/plain] gets the preview [hello world]. *)
Example text_upload_gets_preview :
  wants_preview (UploadFile.content_type Sample.hello_txt) = true /\
  fst (upload_document_file Sample.oid_b 2 Sample.id_a Sample.hello_txt Sample.h_created)
    = Ok (DocumentOut.Build Sample.id_a (VStr "Invoice #2")
            (VList [VStr "a"; VStr "b"]) VNone
            (VStr "text/plain") (VInt 11) (VStr "hello world")).
Proof. vm_compute. split; reflexivity. Qed.

(** C5: the code breaks the second half of the claim.  The document of
    the example above, which carries the preview [hello world], is given
    a second file, four bytes sent as [application/octet-stream].  The
    upload replaces [mime_type] and [size] and returns them, but the
    preview returned and stored is still [hello world], not null: it
    describes a file the document no longer has. *)
Lemma binary_upload_keeps_earlier_preview :
  wants_preview (UploadFile.content_type Sample.raw_bin) = false /\
  fst (upload_document_file Sample.oid_c 3 Sample.id_a Sample.raw_bin Sample.h_text)
    = Ok (DocumentOut.Build Sample.id_a (VStr "Invoice #2")
            (VList [VStr "a"; VStr "b"]) VNone
            (VStr "application/octet-stream") (VInt 4) (VStr "hello world")) /\
  match snd (upload_document_file Sample.oid_c 3 Sample.id_a Sample.raw_bin
               Sample.h_text) with
  | Some d => coll d DOC_COLLECTION !! Sample.oid_a ≫= (fun x => x !! "text_preview")
  | None => None
  end = Some (VStr "hello world").
Proof. vm_compute. repeat split; reflexivity. Qed.

(** ** Listing *)

Lemma dot_is_special c : Regex.is_special c = false -> (c =? 46)%N = false.
Proof.
  intros H. destruct (N.eqb_spec c 46) as [->|]; [discriminate H|done].
Qed.

(** A pattern of literal characters compiles, and matches at the start of
    a text exactly when the text starts with it, character by character
    after folding. *)
Lemma compile_literal (fold : N -> N) (q : list N) :
  forallb (fun c => negb (Regex.is_special c) && negb (c =? 0)%N) q = true ->
  exists rx, Regex.compile q = Some rx /\
    forall s, Regex.match_here fold rx s
              = Text.cp_starts_with (fold <$> q) (fold <$> s).
Proof.
  induction q as [|c q IH]; simpl.
  - intros _. exists []. split; [done|]. by intros [].
  - intros [[Hs Hc]%andb_true_iff Hq]%andb_true_iff.
    apply negb_true_iff in Hs. apply negb_true_iff in Hc.
    destruct (IH Hq) as (rx & Hrx & Hm).
    exists (Regex.Lit c :: rx). split.
    + unfold Regex.atom_of. by rewrite (dot_is_special _ Hs), Hs, Hc, Hrx.
    + intros [|b s]; csimpl; [done|]. by rewrite Hm.
Qed.

Lemma search_literal (fold : N -> N) rx (q : list N) :
  (forall s, Regex.match_here fold rx s
             = Text.cp_starts_with (fold <$> q) (fold <$> s)) ->
  forall s, Regex.search fold rx s = Text.cp_contains (fold <$> q) (fold <$> s).
Proof.
  intros Hm s.
  induction s as [|b s IH]; simpl; rewrite Hm; csimpl; [done|].
  by rewrite IH.
Qed.

(** A literal pattern is compiled to the case-insensitive substring
    test. *)
Lemma regex_literal e q :
  Regex.literal q = true ->
  exists m, regex e q = Matcher m /\ forall s, m s = contains_ci e q s.
Proof.
  intros Hq. unfold regex.
  destruct (compile_literal (Regex.casefold (case_table e)) _ Hq) as (rx & -> & Hm).
  eexists. split; [reflexivity|].
  intros s. apply (search_literal _ _ _ Hm).
Qed.

Lemma existsb_regex_literal e m q l :
  (forall s, m s = contains_ci e q s) ->
  existsb (regex_value m) l = existsb (text_contains e q) l.
Proof.
  intros H. induction l as [|v l IH]; simpl; [done|].
  rewrite IH. f_equal. destruct v; simpl; auto.
Qed.

(** On a literal pattern the filter of [list_documents] is the
    case-insensitive substring test on the title and the tags. *)
Lemma select_literal e q :
  Regex.literal q = true ->
  exists p, select e (TitleOrTags q) = Some p /\
    forall o x, p (with_id o x) = title_or_tag_contains e q x.
Proof.
  intros Hq. destruct (regex_literal e q Hq) as (m & Hrx & Hm).
  eexists. split; [simpl; by rewrite Hrx|].
  intros o x. simpl.
  rewrite !lookup_with_id_ne by done.
  unfold title_or_tag_contains, title_contains, some_tag_contains,
    field_regex, elem_match_regex.
  f_equal.
  - destruct (x !! "title") as [[]|]; eauto using existsb_regex_literal.
  - destruct (x !! "tags") as [[]|]; eauto using existsb_regex_literal.
Qed.

(** A pattern with a group that is never closed does not compile. *)
Lemma unclosed_is_invalid e q :
  Regex.unclosed (Text.codepoints q) = true -> regex e q = Invalid.
Proof.
  intros Hu. unfold regex.
  assert (Hc : Regex.compile (Text.codepoints q) = None); [|by rewrite Hc, Hu].
  apply andb_true_iff in Hu as [Hopen _].
  induction (Text.codepoints q) as [|c l IH];
    cbn [existsb Regex.compile] in *; [discriminate|].
  destruct (N.eqb_spec 40 c) as [<-|Hne]; [done|].
  rewrite (IH Hopen). by destruct (Regex.atom_of c).
Qed.

Lemma document_out_all_entries (L : list (ObjectId * doc)) h :
  document_out_all ((fun p => with_id (fst p) (snd p)) <$> L) h
    = (Ok (entry_out <$> L), h).
Proof.
  induction L as [|[o x] L IH]; [done|].
  csimpl. exec. by rewrite document_out_with_id, IH.
Qed.

Lemma filter_fmap {A B} (f : A -> B) (p : B -> bool) (l : list A) :
  List.filter p (f <$> l) = f <$> List.filter (fun a => p (f a)) l.
Proof.
  induction l as [|a l IH]; csimpl; [done|].
  destruct (p (f a)); csimpl; by rewrite IH.
Qed.

#[global] Instance newer_first_total : Total newer_first.
Proof.
  intros d1 d2. unfold newer_first.
  destruct (created_at d1) as [a|], (created_at d2) as [b|]; simpl; auto.
  destruct (Z.leb_spec a b), (Z.leb_spec b a); simpl; auto; lia.
Qed.

#[global] Instance newer_first_trans : Transitive newer_first.
Proof.
  intros d1 d2 d3. unfold newer_first.
  destruct (created_at d1) as [a|], (created_at d2) as [b|],
    (created_at d3) as [c|]; simpl; auto; try done.
  rewrite !Is_true_true, !Z.leb_le. lia.
Qed.

Lemma created_at_with_id o x : created_at (with_id o x) = created_at x.
Proof. unfold created_at. by rewrite lookup_with_id_ne. Qed.

(** The comparison the sort uses puts [x] before [y] only when [x] is not
    older than [y]. *)
Lemma newer_first_not_older (x y : doc) : newer_first x y -> not_older x y.
Proof.
  unfold newer_first, not_older, created_at, key_leb.
  destruct (x !! "created_at") as [[]|], (y !! "created_at") as [[]|];
    simpl; try done.
  intros H. apply Is_true_true in H. by apply Z.leb_le.
Qed.

Lemma newest_first_entries (L : list (ObjectId * doc)) :
  StronglySorted newer_first ((fun p => with_id (fst p) (snd p)) <$> L) ->
  newest_first L.
Proof.
  unfold newest_first.
  induction L as [|[o x] L IH]; csimpl; intros H; [constructor|].
  apply StronglySorted_inv in H as [Hs Hall]. constructor; [auto|].
  rewrite Forall_fmap in Hall. eapply Forall_impl; [exact Hall|].
  intros [o' x'] H. apply newer_first_not_older in H. revert H.
  unfold not_older; simpl. by rewrite !lookup_with_id_ne.
Qed.

(** What the cursor of [list_documents] yields when the database takes
    the filter: the stored entries that pass it, newest first. *)
Lemma list_documents_run e q d p :
  select e (filter_query q) = Some p ->
  exists L : list (ObjectId * doc),
    list_documents e q (Some d) = (Ok (entry_out <$> L), Some d) /\
    L ≡ₚ List.filter (fun en => p (with_id (fst en) (snd en)))
            (map_to_list (coll d DOC_COLLECTION)) /\
    newest_first L.
Proof.
  intros Hsel.
  set (f := fun en : ObjectId * doc => with_id (fst en) (snd en)).
  set (l := merge_sort newer_first
              (List.filter p (documents (coll d DOC_COLLECTION)))).
  assert (Hperm : l ≡ₚ f <$> List.filter (fun en => p (f en))
                          (map_to_list (coll d DOC_COLLECTION))).
  { unfold l. rewrite merge_sort_Permutation. unfold documents.
    by rewrite filter_fmap. }
  apply Permutation_map_inv in Hperm as (L & HL & HLperm).
  exists L. split; [|split].
  - unfold list_documents. exec. unfold find_sorted. exec. rewrite Hsel.
    fold l. rewrite HL. apply document_out_all_entries.
  - by symmetry.
  - apply newest_first_entries. fold f. change (f <$> L) with (map f L).
    rewrite <- HL. apply StronglySorted_merge_sort; apply _.
Qed.

(** When the database refuses the filter, the request fails. *)
Lemma list_documents_refused e q d :
  select e (filter_query q) = None ->
  list_documents e q (Some d)
    = (HTTPException 500 "Internal Server Error", Some d).
Proof.
  intros Hsel. unfold list_documents. exec. unfold find_sorted. exec.
  by rewrite Hsel.
Qed.

(** C3, as the claim states it, fails: the query is a regular expression,
    so [.] selects a document whose title and tags do not contain a
    dot. *)
Lemma search_dot_returns_receipt :
  fst (list_documents Sample.engine (Some ".") Sample.h_receipt)
    = Ok [DocumentOut.Build Sample.id_a (VStr "Receipt") (VList [])
            (VStr "paid") VNone VNone VNone] /\
  match Sample.h_receipt with
  | Some d =>
      coll d DOC_COLLECTION !! Sample.oid_a
        ≫= (fun x => Some (get x "title", get x "tags",
                             title_or_tag_contains Sample.engine "." x))
  | None => None
  end = Some (VStr "Receipt", VList [], false).
Proof. vm_compute. split; reflexivity. Qed.

(** C3 (amended): for a non-empty query in which no character is a
    regular-expression operator, the listing returns, up to order, the
    representations of exactly the stored documents whose title or one of
    whose tags contains the query as a substring, ignoring case; this
    holds whatever case table the database's library uses outside
    ASCII. *)
Theorem search_by_literal_query (eng : Engine) (q : string) (d : database) :
  Text.nonempty q = true ->
  Regex.literal q = true ->
  exists outs : list DocumentOut.t,
    list_documents eng (Some q) (Some d) = (Ok outs, Some d) /\
    outs ≡ₚ entry_out <$>
              List.filter (fun en => title_or_tag_contains eng q (snd en))
                (map_to_list (coll d DOC_COLLECTION)).
Proof.
  intros Hne Hlit.
  destruct (select_literal eng q Hlit) as (p & Hsel & Hp).
  destruct (list_documents_run eng (Some q) d p) as (L & Hrun & Hperm & _).
  { simpl. by rewrite Hne. }
  exists (entry_out <$> L). split; [exact Hrun|].
  rewrite Hperm.
  erewrite List.filter_ext; [reflexivity|].
  intros [o x]. apply Hp.
Qed.

(** C3 (amended) at work: the query [invoice] over three documents. *)
Lemma search_by_literal_query_witness :
  exists outs : list DocumentOut.t,
    list_documents Sample.engine (Some "invoice") (Some Sample.db_three)
      = (Ok outs, Some Sample.db_three) /\
    outs ≡ₚ entry_out <$>
              List.filter (fun en => title_or_tag_contains Sample.engine "invoice" (snd en))
                (map_to_list (coll Sample.db_three DOC_COLLECTION)).
Proof.
  apply (search_by_literal_query Sample.engine "invoice" Sample.db_three);
    reflexivity.
Defined.

(** The title [Invoice #2] and the tag [Invoices] match, the title
    [Receipt] does not; the two matches come newest first. *)
Example search_invoice_over_three :
  title_or_tag_contains Sample.engine "invoice" (created_doc 1 Sample.invoice) = true /\
  title_or_tag_contains Sample.engine "invoice" (created_doc 3 Sample.receipt) = false /\
  title_or_tag_contains Sample.engine "invoice" (created_doc 2 Sample.memo) = true /\
  fst (list_documents Sample.engine (Some "invoice") (Some Sample.db_three))
    = Ok [DocumentOut.Build "cccccccccccccccccccccccc" (VStr "Memo")
            (VList [VStr "Invoices"]) VNone VNone VNone VNone;
          DocumentOut.Build Sample.id_a (VStr "Invoice #2")
            (VList [VStr "a"; VStr "b"]) VNone VNone VNone VNone].
Proof. vm_compute. repeat split; reflexivity. Qed.

(** Folding follows the library's table outside ASCII: with the Kelvin
    sign folded to [k], the query [k] finds a title that is the Kelvin
    sign. *)
Example search_folds_kelvin_sign :
  Text.codepoints (DocumentCreate.title Sample.kelvin) = [8490%N] /\
  title_or_tag_contains Sample.engine "k" (created_doc 1 Sample.kelvin) = true /\
  fst (list_documents Sample.engine (Some "k") (Some Sample.db_kelvin))
    = Ok [DocumentOut.Build Sample.id_a (VStr (DocumentCreate.title Sample.kelvin))
            (VList []) VNone VNone VNone VNone].
Proof. vm_compute. repeat split; reflexivity. Qed.

(** C9, as the claim states it, fails: a query that does not compile as
    a regular expression gets no listing but an error. *)
Lemma list_with_open_group_is_500 :
  list_documents Sample.engine (Some "(") (Some Sample.db_three)
    = (HTTPException 500 "Internal Server Error", Some Sample.db_three).
Proof. apply list_documents_refused. reflexivity. Qed.

(** That does not depend on the library's parameters: an unclosed group
    is refused by every engine. *)
Lemma list_with_unclosed_group_is_500 e q d :
  Text.nonempty q = true ->
  Regex.unclosed (Text.codepoints q) = true ->
  list_documents e (Some q) (Some d)
    = (HTTPException 500 "Internal Server Error", Some d).
Proof.
  intros Hne Hq. apply list_documents_refused.
  unfold filter_query, select. by rewrite Hne, (unclosed_is_invalid e q Hq).
Qed.

(** The filter is taken when there is no query, and when the query is
    made of literal characters. *)
Lemma select_without_query e : select e (filter_query None) = Some (fun _ => true).
Proof. reflexivity. Qed.

Lemma select_with_literal_query e q :
  Regex.literal q = true -> is_Some (select e (filter_query (Some q))).
Proof.
  intros Hq. unfold filter_query. destruct (Text.nonempty q); [|done].
  destruct (select_literal e q Hq) as (p & Hp & _). by rewrite Hp.
Qed.

(** C9 (amended): whenever the database takes the filter (always when
    there is no query, and when the query compiles as a regular
    expression), the listing returns exactly the stored documents that
    pass it, ordered by descending [created_at]: every entry was created
    no earlier than each entry after it, entries without a creation date
    coming last. *)
Theorem list_is_sorted_by_creation_time_descending
    (eng : Engine) (q : option string) (d : database) (p : doc -> bool) :
  select eng (filter_query q) = Some p ->
  exists L : list (ObjectId * doc),
    list_documents eng q (Some d) = (Ok (entry_out <$> L), Some d) /\
    L ≡ₚ List.filter (fun en => p (with_id (fst en) (snd en)))
            (map_to_list (coll d DOC_COLLECTION)) /\
    StronglySorted (fun p1 p2 => not_older (snd p1) (snd p2)) L.
Proof. apply list_documents_run. Qed.

(** C9 (amended) at work: listing three documents created at times 1, 2
    and 3, without a query. *)
Lemma list_is_sorted_witness :
  exists L : list (ObjectId * doc),
    list_documents Sample.engine None (Some Sample.db_three)
      = (Ok (entry_out <$> L), Some Sample.db_three) /\
    length L = 3%nat /\
    StronglySorted (fun p1 p2 => not_older (snd p1) (snd p2)) L.
Proof.
  destruct (list_is_sorted_by_creation_time_descending Sample.engine None
              Sample.db_three (fun _ => true)) as (L & Hrun & Hperm & Hsorted).
  - reflexivity.
  - exists L. split; [exact Hrun|]. split; [|exact Hsorted].
    rewrite Hperm. vm_compute. reflexivity.
Defined.

(** They come back in the order 3, 2, 1, which is not the order the
    collection enumerates them in. *)
Example list_of_three_is_newest_first :
  fst (list_documents Sample.engine None (Some Sample.db_three))
    = Ok [DocumentOut.Build "aaaaaaaaaaaaaaaaaaaaaaaa" (VStr "Receipt")
            (VList []) (VStr "paid") VNone VNone VNone;
          DocumentOut.Build "cccccccccccccccccccccccc" (VStr "Memo")
            (VList [VStr "Invoices"]) VNone VNone VNone VNone;
          DocumentOut.Build Sample.id_a (VStr "Invoice #2")
            (VList [VStr "a"; VStr "b"]) VNone VNone VNone VNone] /\
  (fun p => str_of_ObjectId (fst p))
    <$> map_to_list (coll Sample.db_three DOC_COLLECTION)
    = ["cccccccccccccccccccccccc"; "aaaaaaaaaaaaaaaaaaaaaaaa"; Sample.id_a].
Proof. vm_compute. split; reflexivity. Qed.

(** * Further properties of the handlers *)

(** ** The unconfigured database *)

(** X1: with the database not configured, each of the six data routes
    answers 500 "Database not configured", whatever it is given, and the
    handle stays unset. *)
Theorem no_database_is_500
    (new_id : ObjectId) (now : Z) (payload : DocumentCreate.t)
    (doc_id : string) (file : UploadFile.t) (eng : Engine) (q : option string) :
  create_document_metadata new_id now payload None
    = (HTTPException 500 "Database not configured", None) /\
  upload_document_file new_id now doc_id file None
    = (HTTPException 500 "Database not configured", None) /\
  download_document_file doc_id None
    = (HTTPException 500 "Database not configured", None) /\
  list_documents eng q None
    = (HTTPException 500 "Database not configured", None) /\
  update_document doc_id payload None
    = (HTTPException 500 "Database not configured", None) /\
  delete_document doc_id None
    = (HTTPException 500 "Database not configured", None).
Proof. repeat split; reflexivity. Qed.

(** ** Missing documents *)

(** X2: an upload to a well-formed identifier that matches no document
    answers 404 and stores nothing, in particular no blob. *)
Theorem upload_to_missing_document_is_404
    (new_id : ObjectId) (now : Z) (doc_id : string) (file : UploadFile.t)
    (d : database) (oid : ObjectId) :
  ObjectId_of_str doc_id = Some (Id oid) ->
  coll d DOC_COLLECTION !! oid = None ->
  upload_document_file new_id now doc_id file (Some d)
    = (HTTPException 404 "Document not found", Some d).
Proof.
  intros Hp Hn. unfold upload_document_file. rewrite Hp. exec.
  rewrite Hn. reflexivity.
Qed.

(** X2 at work: an upload into an empty database. *)
Lemma upload_to_missing_document_witness :
  upload_document_file Sample.oid_b 2 Sample.id_a Sample.hello_txt (Some ∅)
    = (HTTPException 404 "Document not found", Some ∅).
Proof.
  apply (upload_to_missing_document_is_404 Sample.oid_b 2 Sample.id_a
           Sample.hello_txt ∅ Sample.oid_a).
  - exact sample_parse.
  - apply lookup_coll_empty.
Defined.

(** X3: deleting a well-formed identifier that matches no document
    answers 404 and removes nothing. *)
Theorem delete_missing_document_is_404
    (doc_id : string) (d : database) (oid : ObjectId) :
  ObjectId_of_str doc_id = Some (Id oid) ->
  coll d DOC_COLLECTION !! oid = None ->
  delete_document doc_id (Some d)
    = (HTTPException 404 "Document not found", Some d).
Proof.
  intros Hp Hn. unfold delete_document. rewrite Hp. exec.
  rewrite Hn. reflexivity.
Qed.

(** X3 at work: a delete in an empty database. *)
Lemma delete_missing_document_witness :
  delete_document Sample.id_a (Some ∅)
    = (HTTPException 404 "Document not found", Some ∅).
Proof.
  apply (delete_missing_document_is_404 Sample.id_a ∅ Sample.oid_a).
  - exact sample_parse.
  - apply lookup_coll_empty.
Defined.

(** ** The reading routes *)

Lemma document_out_keeps_handle (x : doc) (h : option database) :
  snd (document_out x h) = h.
Proof.
  unfold document_out, str_id.
  destruct (x !! "_id") as [[| | | |[]| |]|]; reflexivity.
Qed.

Lemma document_out_all_keeps_handle (l : list doc) (h : option database) :
  snd (document_out_all l h) = h.
Proof.
  induction l as [|x l IH]; [done|].
  simpl. exec.
  pose proof (document_out_keeps_handle x h) as Hx.
  destruct (document_out x h) as [[o| |] h1]; simpl in Hx; subst h1; [|done..].
  specialize IH. destruct (document_out_all l h) as [[os| |] h2];
    simpl in IH; by subst h2.
Qed.

Lemma download_keeps_handle (doc_id : string) (h : option database) :
  snd (download_document_file doc_id h) = h.
Proof.
  unfold download_document_file. destruct h as [d|]; [|done].
  destruct (ObjectId_of_str doc_id) as [[oid|hex]|]; [|done..].
  exec. destruct (coll d DOC_COLLECTION !! oid) as [x|]; [|done]. simpl.
  destruct (truthy _); [|done]. simpl.
  destruct (get (with_id oid x) "file_blob_id") as [| | | |[b|hex]| |];
    try done. simpl.
  destruct (coll d FILE_COLLECTION !! b) as [blob|]; [|done]. simpl.
  unfold blob_content. destruct (_ !! "content") as [[]|]; try done.
  exec. unfold streaming_response.
  destruct (header_text _); [|done].
  destruct (py_or _ _); try done.
  by destruct (_ && _).
Qed.

Lemma list_keeps_handle (eng : Engine) (q : option string) (h : option database) :
  snd (list_documents eng q h) = h.
Proof.
  unfold list_documents. destruct h as [d|]; [|done].
  exec. unfold find_sorted. exec.
  destruct (select _); [|done].
  apply document_out_all_keeps_handle.
Qed.

(** X4: the two reading routes never write: whatever the identifier, the
    query and the stored data, download and listing leave the database
    handle exactly as they found it. *)
Theorem reading_routes_write_nothing
    (doc_id : string) (eng : Engine) (q : option string) (h : option database) :
  snd (download_document_file doc_id h) = h /\
  snd (list_documents eng q h) = h.
Proof. split; [apply download_keeps_handle | apply list_keeps_handle]. Qed.

(** X5: a document that was just created has no file: the download
    for the identifier the creation returned answers 404. *)
Theorem download_of_fresh_document_is_404
    (new_id : ObjectId) (now : Z) (payload : DocumentCreate.t) (d : database) :
  coll d DOC_COLLECTION !! new_id = None ->
  exists (out : DocumentOut.t) (d' : database),
    create_document_metadata new_id now payload (Some d) = (Ok out, Some d') /\
    download_document_file (DocumentOut.id out) (Some d')
      = (HTTPException 404 "File not found for this document", Some d').
Proof.
  intros Hfresh.
  exists (stored_out new_id (created_doc now payload)),
    (db_insert DOC_COLLECTION new_id (created_doc now payload) d).
  split.
  - unfold create_document_metadata. exec. rewrite Hfresh.
    rewrite ObjectId_of_str_of_ObjectId. exec.
    rewrite coll_db_insert_same, lookup_insert_eq. simpl.
    by rewrite document_out_with_id.
  - unfold download_document_file. simpl.
    rewrite ObjectId_of_str_of_ObjectId. exec.
    rewrite coll_db_insert_same, lookup_insert_eq. simpl.
    rewrite get_with_id by done.
    unfold get, created_doc. fields. reflexivity.
Qed.

(** X5 at work: the sample invoice created in an empty database. *)
Lemma download_of_fresh_document_witness :
  exists (out : DocumentOut.t) (d' : database),
    create_document_metadata Sample.oid_a 1 Sample.invoice (Some ∅)
      = (Ok out, Some d') /\
    download_document_file (DocumentOut.id out) (Some d')
      = (HTTPException 404 "File not found for this document", Some d').
Proof.
  apply (download_of_fresh_document_is_404 Sample.oid_a 1 Sample.invoice ∅).
  apply lookup_coll_empty.
Defined.

(** X6: a document whose blob reference points at no stored blob cannot be
    downloaded: the answer is 404 "File blob missing". *)
Theorem download_with_dangling_reference_is_404
    (doc_id : string) (d : database) (oid b : ObjectId) (x : doc) :
  ObjectId_of_str doc_id = Some (Id oid) ->
  coll d DOC_COLLECTION !! oid = Some x ->
  x !! "file_blob_id" = Some (VOid b) ->
  coll d FILE_COLLECTION !! b = None ->
  download_document_file doc_id (Some d)
    = (HTTPException 404 "File blob missing", Some d).
Proof.
  intros Hp Hx Hb Hn. unfold download_document_file. rewrite Hp. exec.
  rewrite Hx. simpl. rewrite get_with_id by done.
  unfold get. rewrite Hb. simpl. rewrite Hn. reflexivity.
Qed.

(** X6 at work. *)
Lemma download_with_dangling_reference_witness :
  download_document_file Sample.id_a (Some Scenario.db_dangling)
    = (HTTPException 404 "File blob missing", Some Scenario.db_dangling).
Proof.
  apply (download_with_dangling_reference_is_404 Sample.id_a Scenario.db_dangling
           Sample.oid_a Sample.oid_b
           (<["file_blob_id" := VOid Sample.oid_b]> (created_doc 1 Sample.invoice))).
  - exact sample_parse.
  - unfold Scenario.db_dangling. rewrite coll_db_insert_same. apply lookup_insert_eq.
  - apply lookup_insert_eq.
  - unfold Scenario.db_dangling.
    rewrite coll_db_insert_ne by apply collections_differ.
    apply lookup_coll_empty.
Defined.

(** ** Uploads and the blobs they leave *)

Lemma sample_attached_stored :
  coll Scenario.db_attached DOC_COLLECTION !! Sample.oid_a
    = Some (uploaded_doc Sample.oid_b Sample.hello_txt (created_doc 1 Sample.invoice)).
Proof.
  unfold Scenario.db_attached.
  rewrite (coll_uploaded_db_doc _ _ _ _ _ _ sample_invoice_stored).
  apply lookup_insert_eq.
Qed.

Lemma sample_attached_blob :
  coll Scenario.db_attached FILE_COLLECTION !! Sample.oid_b
    = Some (stored_blob Sample.oid_a 2 Sample.hello_txt).
Proof.
  unfold Scenario.db_attached. rewrite coll_uploaded_db_file.
  apply lookup_insert_eq.
Qed.

Lemma sample_oid_c_ne_b : Sample.oid_c ≠ Sample.oid_b.
Proof. intros H. apply (f_equal str_of_ObjectId) in H. discriminate H. Qed.

Lemma sample_attached_no_c :
  coll Scenario.db_attached FILE_COLLECTION !! Sample.oid_c = None.
Proof.
  unfold Scenario.db_attached. rewrite coll_uploaded_db_file.
  rewrite lookup_insert_ne by (apply not_eq_sym, sample_oid_c_ne_b).
  apply sample_invoice_no_blob.
Qed.

(** X7: a successful upload only adds to the blob collection.  The new
    blob is stored under the generated identifier and the document now
    refers to it; every blob stored before, including one the document
    referred to until now, is still stored, unchanged. *)
Theorem upload_adds_a_blob_and_removes_none
    (new_id : ObjectId) (now : Z) (doc_id : string) (file : UploadFile.t)
    (h h' : option database) (out : DocumentOut.t) :
  upload_document_file new_id now doc_id file h = (Ok out, h') ->
  exists (d d' : database) (oid : ObjectId) (x' : doc),
    h = Some d /\ h' = Some d' /\
    ObjectId_of_str doc_id = Some (Id oid) /\
    coll d' DOC_COLLECTION !! oid = Some x' /\
    x' !! "file_blob_id" = Some (VOid new_id) /\
    coll d FILE_COLLECTION !! new_id = None /\
    coll d' FILE_COLLECTION !! new_id = Some (stored_blob oid now file) /\
    forall (b : ObjectId) (blob : doc),
      coll d FILE_COLLECTION !! b = Some blob ->
      coll d' FILE_COLLECTION !! b = Some blob.
Proof.
  intros Hup.
  destruct (upload_document_file_ok_inv _ _ _ _ _ _ _ Hup)
    as (d & oid & x & -> & Hp & Hx & Hfresh).
  rewrite (upload_document_file_ok _ now _ file _ _ _ Hp Hx Hfresh) in Hup.
  injection Hup as _ <-.
  exists d, (uploaded_db new_id now oid file d), oid, (uploaded_doc new_id file x).
  rewrite (coll_uploaded_db_doc _ _ _ _ _ _ Hx), coll_uploaded_db_file.
  repeat split; try done.
  - apply lookup_insert_eq.
  - apply uploaded_doc_blob_id.
  - apply lookup_insert_eq.
  - intros b blob Hb. rewrite lookup_insert_ne; [done|].
    intros ->. congruence.
Qed.

(** X7 at work: a second file uploaded to the sample invoice. *)
Lemma upload_adds_a_blob_witness :
  exists d' : database,
    snd (upload_document_file Sample.oid_c 3 Sample.id_a Sample.raw_bin
           (Some Scenario.db_attached)) = Some d' /\
    coll d' FILE_COLLECTION !! Sample.oid_b
      = Some (stored_blob Sample.oid_a 2 Sample.hello_txt).
Proof.
  destruct (upload_adds_a_blob_and_removes_none Sample.oid_c 3 Sample.id_a
              Sample.raw_bin (Some Scenario.db_attached)
              (snd (upload_document_file Sample.oid_c 3 Sample.id_a Sample.raw_bin
                      (Some Scenario.db_attached)))
              (stored_out Sample.oid_a
                 (uploaded_doc Sample.oid_c Sample.raw_bin
                    (uploaded_doc Sample.oid_b Sample.hello_txt
                       (created_doc 1 Sample.invoice)))))
    as (d & d' & oid & x' & Hd & Hd' & _ & _ & _ & _ & _ & Hkeep).
  - apply run_eq.
    by rewrite (upload_document_file_ok _ _ _ _ _ _ _ sample_parse
                  sample_attached_stored sample_attached_no_c).
  - exists d'. split; [exact Hd'|].
    apply Hkeep. injection Hd as <-. apply sample_attached_blob.
Defined.

Lemma uploaded_doc_frame blob_id file x k :
  k ≠ "mime_type" -> k ≠ "size" -> k ≠ "file_blob_id" -> k ≠ "text_preview" ->
  uploaded_doc blob_id file x !! k = x !! k.
Proof.
  intros H1 H2 H3 H4. unfold uploaded_doc.
  destruct (wants_preview _).
  - rewrite lookup_union_r by by fields.
    rewrite lookup_union_r by by fields. reflexivity.
  - rewrite lookup_union_r by by fields. reflexivity.
Qed.

(** X9: an upload to an existing document changes, in that document, only
    [mime_type], [size], [file_blob_id] and [text_preview]; its title,
    tags, notes and every other field stay as they were, and so does
    every other document. *)
Theorem upload_leaves_metadata_alone
    (new_id : ObjectId) (now : Z) (doc_id : string) (file : UploadFile.t)
    (d : database) (oid : ObjectId) (x : doc) :
  ObjectId_of_str doc_id = Some (Id oid) ->
  coll d DOC_COLLECTION !! oid = Some x ->
  coll d FILE_COLLECTION !! new_id = None ->
  exists (out : DocumentOut.t) (d' : database) (x' : doc),
    upload_document_file new_id now doc_id file (Some d) = (Ok out, Some d') /\
    coll d' DOC_COLLECTION !! oid = Some x' /\
    x' !! "title" = x !! "title" /\
    x' !! "tags" = x !! "tags" /\
    x' !! "notes" = x !! "notes" /\
    (forall k, k ≠ "mime_type" -> k ≠ "size" -> k ≠ "file_blob_id" ->
               k ≠ "text_preview" -> x' !! k = x !! k) /\
    DocumentOut.title out = get x "title" /\
    DocumentOut.tags out = get_or x "tags" (VList []) /\
    DocumentOut.notes out = get x "notes" /\
    (forall o, o ≠ oid -> coll d' DOC_COLLECTION !! o = coll d DOC_COLLECTION !! o).
Proof.
  intros Hp Hx Hfresh.
  exists (stored_out oid (uploaded_doc new_id file x)),
    (uploaded_db new_id now oid file d), (uploaded_doc new_id file x).
  split; [by apply upload_document_file_ok|].
  rewrite (coll_uploaded_db_doc _ _ _ _ _ _ Hx).
  split; [apply lookup_insert_eq|].
  repeat split; try (by apply uploaded_doc_frame).
  - simpl. unfold get. by rewrite uploaded_doc_frame.
  - simpl. unfold get_or. by rewrite uploaded_doc_frame.
  - simpl. unfold get. by rewrite uploaded_doc_frame.
  - intros o Ho. by rewrite lookup_insert_ne.
Qed.

(** X9 at work: [hello.txt] uploaded to the sample invoice. *)
Lemma upload_leaves_metadata_witness :
  exists (out : DocumentOut.t) (d' : database),
    upload_document_file Sample.oid_b 2 Sample.id_a Sample.hello_txt
      (Some Sample.db_invoice) = (Ok out, Some d') /\
    DocumentOut.title out = get (created_doc 1 Sample.invoice) "title".
Proof.
  destruct (upload_leaves_metadata_alone Sample.oid_b 2 Sample.id_a Sample.hello_txt
              Sample.db_invoice Sample.oid_a (created_doc 1 Sample.invoice))
    as (out & d' & x' & Hrun & _ & _ & _ & _ & _ & Htitle & _).
  - exact sample_parse.
  - exact sample_invoice_stored.
  - apply sample_invoice_no_blob.
  - exists out, d'. split; assumption.
Defined.

(** ** Deleting *)

(** The database a delete of the stored document [x] leaves: the blob the
    document refers to is removed when the reference is an identifier. *)
Lemma delete_document_found doc_id d oid x :
  ObjectId_of_str doc_id = Some (Id oid) ->
  coll d DOC_COLLECTION !! oid = Some x ->
  delete_document doc_id (Some d)
    = (Ok {[ "status" := VStr "deleted" ]},
       Some (db_delete DOC_COLLECTION oid
               (match get x "file_blob_id" with
                | VOid (Id b) => db_delete FILE_COLLECTION b d
                | _ => d
                end))).
Proof.
  intros Hp Hx. unfold delete_document. rewrite Hp. exec. rewrite Hx. simpl.
  rewrite get_with_id by done.
  destruct (get x "file_blob_id") as [|s|n|bs|[b|hex]|l|t]; simpl;
    try reflexivity;
    match goal with |- context [if ?c then _ else _] => destruct c end;
    reflexivity.
Qed.

Lemma delete_document_docs doc_id d oid x d' r :
  ObjectId_of_str doc_id = Some (Id oid) ->
  coll d DOC_COLLECTION !! oid = Some x ->
  delete_document doc_id (Some d) = (r, Some d') ->
  coll d' DOC_COLLECTION = delete oid (coll d DOC_COLLECTION).
Proof.
  intros Hp Hx. rewrite (delete_document_found _ _ _ _ Hp Hx).
  intros [= _ <-]. rewrite coll_db_delete_same. f_equal.
  destruct (get x "file_blob_id") as [| | | |[b|hex]| |]; try done.
  apply coll_db_delete_ne, collections_differ'.
Qed.

(** X12: once a document is deleted, its identifier is gone for every
    route: a further upload, download, update or delete for it answers
    404. *)
Theorem deleted_document_is_gone_for_every_route
    (doc_id : string) (d : database) (oid : ObjectId) (x : doc)
    (new_id : ObjectId) (now : Z) (file : UploadFile.t) (payload : DocumentCreate.t) :
  ObjectId_of_str doc_id = Some (Id oid) ->
  coll d DOC_COLLECTION !! oid = Some x ->
  exists d' : database,
    delete_document doc_id (Some d) = (Ok {[ "status" := VStr "deleted" ]}, Some d') /\
    upload_document_file new_id now doc_id file (Some d')
      = (HTTPException 404 "Document not found", Some d') /\
    download_document_file doc_id (Some d')
      = (HTTPException 404 "File not found for this document", Some d') /\
    update_document doc_id payload (Some d')
      = (HTTPException 404 "Document not found", Some d') /\
    delete_document doc_id (Some d')
      = (HTTPException 404 "Document not found", Some d').
Proof.
  intros Hp Hx. eexists. split; [by apply delete_document_found|].
  set (d' := db_delete _ _ _).
  assert (Hgone : coll d' DOC_COLLECTION !! oid = None).
  { rewrite (delete_document_docs doc_id d oid x d' _ Hp Hx
               (delete_document_found _ _ _ _ Hp Hx)).
    apply lookup_delete_eq. }
  unfold upload_document_file, download_document_file, update_document,
    delete_document.
  rewrite Hp. exec. rewrite (db_set_None _ _ _ _ Hgone), Hgone.
  repeat split; reflexivity.
Qed.

(** X12 at work: the sample invoice deleted. *)
Lemma deleted_document_is_gone_witness :
  exists d' : database,
    delete_document Sample.id_a (Some Sample.db_invoice)
      = (Ok {[ "status" := VStr "deleted" ]}, Some d') /\
    update_document Sample.id_a Scenario.renamed (Some d')
      = (HTTPException 404 "Document not found", Some d').
Proof.
  destruct (deleted_document_is_gone_for_every_route Sample.id_a Sample.db_invoice
              Sample.oid_a (created_doc 1 Sample.invoice) Sample.oid_b 2
              Sample.hello_txt Scenario.renamed)
    as (d' & Hdel & _ & _ & Hupd & _).
  - exact sample_parse.
  - exact sample_invoice_stored.
  - exists d'. split; assumption.
Defined.

(** X13: deleting a document that has no file (no blob reference, or a
    null one) removes the document and nothing else: the blob collection
    and every other document are as before. *)
Theorem delete_without_file_removes_only_the_document
    (doc_id : string) (d : database) (oid : ObjectId) (x : doc) :
  ObjectId_of_str doc_id = Some (Id oid) ->
  coll d DOC_COLLECTION !! oid = Some x ->
  get x "file_blob_id" = VNone ->
  delete_document doc_id (Some d)
    = (Ok {[ "status" := VStr "deleted" ]}, Some (db_delete DOC_COLLECTION oid d)) /\
  coll (db_delete DOC_COLLECTION oid d) DOC_COLLECTION !! oid = None /\
  (forall o, o ≠ oid ->
     coll (db_delete DOC_COLLECTION oid d) DOC_COLLECTION !! o
       = coll d DOC_COLLECTION !! o) /\
  coll (db_delete DOC_COLLECTION oid d) FILE_COLLECTION = coll d FILE_COLLECTION.
Proof.
  intros Hp Hx Hnone. split; [|split; [|split]].
  - rewrite (delete_document_found _ _ _ _ Hp Hx). by rewrite Hnone.
  - rewrite coll_db_delete_same. apply lookup_delete_eq.
  - intros o Ho. rewrite coll_db_delete_same. by apply lookup_delete_ne.
  - apply coll_db_delete_ne, collections_differ.
Qed.

(** X13 at work: the sample invoice, which has no file yet. *)
Lemma delete_without_file_witness :
  delete_document Sample.id_a (Some Sample.db_invoice)
    = (Ok {[ "status" := VStr "deleted" ]},
       Some (db_delete DOC_COLLECTION Sample.oid_a Sample.db_invoice)).
Proof.
  apply (delete_without_file_removes_only_the_document Sample.id_a
           Sample.db_invoice Sample.oid_a (created_doc 1 Sample.invoice)).
  - exact sample_parse.
  - exact sample_invoice_stored.
  - unfold get, created_doc. by fields.
Defined.

(** X8: a replaced file is never cleaned up.  When a document that already
    has a blob gets a new upload and is then deleted, the delete removes
    the document and the new blob, and the earlier blob stays in the
    collection. *)
Theorem replaced_blob_survives_delete
    (new_id : ObjectId) (now : Z) (doc_id : string) (file : UploadFile.t)
    (d : database) (oid b_old : ObjectId) (x blob_old : doc) :
  ObjectId_of_str doc_id = Some (Id oid) ->
  coll d DOC_COLLECTION !! oid = Some x ->
  x !! "file_blob_id" = Some (VOid b_old) ->
  coll d FILE_COLLECTION !! b_old = Some blob_old ->
  coll d FILE_COLLECTION !! new_id = None ->
  exists (out : DocumentOut.t) (d1 d2 : database),
    upload_document_file new_id now doc_id file (Some d) = (Ok out, Some d1) /\
    delete_document doc_id (Some d1)
      = (Ok {[ "status" := VStr "deleted" ]}, Some d2) /\
    coll d2 DOC_COLLECTION !! oid = None /\
    coll d2 FILE_COLLECTION !! new_id = None /\
    coll d2 FILE_COLLECTION !! b_old = Some blob_old.
Proof.
  intros Hp Hx Hold Hblob Hfresh.
  assert (Hne : new_id ≠ b_old) by (intros ->; congruence).
  pose proof (coll_uploaded_db_doc new_id now oid file d x Hx) as Hdoc.
  assert (Hx1 : coll (uploaded_db new_id now oid file d) DOC_COLLECTION !! oid
                = Some (uploaded_doc new_id file x))
    by (rewrite Hdoc; apply lookup_insert_eq).
  eexists _, _, _.
  split; [by apply upload_document_file_ok|].
  split; [by apply (delete_document_found _ _ _ _ Hp Hx1)|].
  unfold get. rewrite uploaded_doc_blob_id. simpl.
  split; [rewrite coll_db_delete_same; apply lookup_delete_eq|].
  rewrite coll_db_delete_ne by apply collections_differ.
  rewrite coll_db_delete_same, coll_uploaded_db_file.
  split; [apply lookup_delete_eq|].
  rewrite lookup_delete_ne by done. by rewrite lookup_insert_ne.
Qed.

(** X8 at work: [raw.bin] replaces [hello.txt] on the sample invoice, which
    is then deleted; the blob of [hello.txt] is still stored. *)
Lemma replaced_blob_survives_witness :
  exists (out : DocumentOut.t) (d1 d2 : database),
    upload_document_file Sample.oid_c 3 Sample.id_a Sample.raw_bin
      (Some Scenario.db_attached) = (Ok out, Some d1) /\
    delete_document Sample.id_a (Some d1)
      = (Ok {[ "status" := VStr "deleted" ]}, Some d2) /\
    coll d2 FILE_COLLECTION !! Sample.oid_b
      = Some (stored_blob Sample.oid_a 2 Sample.hello_txt).
Proof.
  destruct (replaced_blob_survives_delete Sample.oid_c 3 Sample.id_a Sample.raw_bin
              Scenario.db_attached Sample.oid_a Sample.oid_b
              (uploaded_doc Sample.oid_b Sample.hello_txt (created_doc 1 Sample.invoice))
              (stored_blob Sample.oid_a 2 Sample.hello_txt))
    as (out & d1 & d2 & Hup & Hdel & _ & _ & Hold).
  - exact sample_parse.
  - exact sample_attached_stored.
  - apply uploaded_doc_blob_id.
  - exact sample_attached_blob.
  - exact sample_attached_no_c.
  - exists out, d1, d2. repeat split; assumption.
Defined.

(** ** Updating *)

Lemma update_document_missing doc_id payload d oid :
  ObjectId_of_str doc_id = Some (Id oid) ->
  coll d DOC_COLLECTION !! oid = None ->
  update_document doc_id payload (Some d)
    = (HTTPException 404 "Document not found", Some d).
Proof.
  intros Hp Hn. unfold update_document. rewrite Hp. exec.
  by rewrite (db_set_None _ _ _ _ Hn), Hn.
Qed.

Lemma updated_doc_twice p1 p2 x :
  updated_doc p2 (updated_doc p1 x) = updated_doc p2 x.
Proof.
  apply map_eq. intros k. unfold updated_doc. rewrite !lookup_union.
  destruct (decide (k = "title")) as [->|H1]; [fields; by destruct (x !! _)|].
  destruct (decide (k = "tags")) as [->|H2]; [fields; by destruct (x !! _)|].
  destruct (decide (k = "notes")) as [->|H3]; [fields; by destruct (x !! _)|].
  fields. by destruct (x !! k).
Qed.

Lemma db_set_twice n o f1 f2 d x :
  coll d n !! o = Some x ->
  db_set n o f2 (db_set n o f1 d) = <[n := <[o := f2 ∪ (f1 ∪ x)]> (coll d n)]> d.
Proof.
  intros Hx. unfold db_set at 1.
  rewrite (coll_db_set_same _ _ _ _ _ Hx), lookup_insert_eq, insert_insert_eq.
  unfold db_set. rewrite Hx. by rewrite insert_insert_eq.
Qed.

(** X10: updates do not accumulate: an update applied after another
    update of the same identifier answers and leaves the database exactly
    as if the earlier one had never been made.  In particular repeating
    an update changes nothing. *)
Theorem update_last_write_wins
    (doc_id : string) (p1 p2 : DocumentCreate.t) (h : option database) :
  update_document doc_id p2 (snd (update_document doc_id p1 h))
    = update_document doc_id p2 h.
Proof.
  destruct h as [d|]; [|reflexivity].
  destruct (ObjectId_of_str doc_id) as [[oid|hex]|] eqn:Hp;
    [|unfold update_document; by rewrite Hp..].
  - destruct (coll d DOC_COLLECTION !! oid) as [x|] eqn:Hx.
    + rewrite (update_document_found _ p1 _ _ _ Hp Hx). simpl.
      assert (Hx1 : coll (db_set DOC_COLLECTION oid
                            {[ "title" := VStr (DocumentCreate.title p1);
                               "tags" := tags_or_empty p1;
                               "notes" := of_opt_str (DocumentCreate.notes p1) ]} d)
                      DOC_COLLECTION !! oid = Some (updated_doc p1 x)).
      { rewrite (coll_db_set_same _ _ _ _ _ Hx). apply lookup_insert_eq. }
      rewrite (update_document_found _ p2 _ _ _ Hp Hx1).
      rewrite (update_document_found _ p2 _ _ _ Hp Hx).
      rewrite updated_doc_twice. f_equal. f_equal.
      rewrite (db_set_twice _ _ _ _ _ _ Hx).
      fold (updated_doc p1 x). fold (updated_doc p2 (updated_doc p1 x)).
      rewrite updated_doc_twice. unfold db_set. by rewrite Hx.
    + by rewrite (update_document_missing _ p1 _ _ Hp Hx).
Qed.

(** What a download returns is decided by the blob collection and by the
    blob reference of the document asked for. *)
Lemma download_depends_on_reference_and_blobs doc_id d1 d2 :
  coll d1 FILE_COLLECTION = coll d2 FILE_COLLECTION ->
  (forall oid,
     (fun x => get x "file_blob_id") <$> coll d1 DOC_COLLECTION !! oid
       = (fun x => get x "file_blob_id") <$> coll d2 DOC_COLLECTION !! oid) ->
  fst (download_document_file doc_id (Some d1))
    = fst (download_document_file doc_id (Some d2)).
Proof.
  intros Hfile Hdoc. unfold download_document_file.
  destruct (ObjectId_of_str doc_id) as [[oid|hex]|]; [|reflexivity..].
  exec. specialize (Hdoc oid).
  destruct (coll d1 DOC_COLLECTION !! oid) as [x1|],
    (coll d2 DOC_COLLECTION !! oid) as [x2|]; simpl in *; try done.
  injection Hdoc as Hdoc. rewrite !get_with_id by done. rewrite Hdoc.
  destruct (truthy _); [|done]. simpl. rewrite Hfile.
  destruct (get x2 "file_blob_id") as [| | | |[b|hex]| |]; try done. simpl.
  destruct (coll d2 FILE_COLLECTION !! b) as [blob|]; [|done]. simpl.
  unfold blob_content. destruct (_ !! "content") as [[]|]; try reflexivity.
  exec. unfold streaming_response.
  destruct (header_text _); [|done].
  destruct (py_or _ _); try done.
  by destruct (_ && _).
Qed.

(** X11: updating the metadata of any document changes no download: for
    every identifier, the download answers after the update what it
    answered before it. *)
Theorem update_changes_no_download
    (doc_id : string) (payload : DocumentCreate.t) (doc_id' : string)
    (h : option database) :
  fst (download_document_file doc_id' (snd (update_document doc_id payload h)))
    = fst (download_document_file doc_id' h).
Proof.
  destruct h as [d|]; [|reflexivity].
  destruct (ObjectId_of_str doc_id) as [[oid|hex]|] eqn:Hp;
    [|unfold update_document; by rewrite Hp..].
  - destruct (coll d DOC_COLLECTION !! oid) as [x|] eqn:Hx.
    + rewrite (update_document_found _ payload _ _ _ Hp Hx). simpl.
      apply download_depends_on_reference_and_blobs.
      * apply coll_db_set_ne, collections_differ.
      * intros o. rewrite (coll_db_set_same _ _ _ _ _ Hx).
        destruct (decide (oid = o)) as [<-|Ho].
        -- rewrite lookup_insert_eq, Hx. simpl. f_equal. unfold get.
           fold (updated_doc payload x). by rewrite updated_doc_frame.
        -- by rewrite lookup_insert_ne.
    + by rewrite (update_document_missing _ payload _ _ Hp Hx).
Qed.

(** ** Listing *)

Lemma filter_all {A} (l : list A) : List.filter (fun _ => true) l = l.
Proof. induction l as [|a l IH]; simpl; congruence. Qed.

(** The listing without a filter, as a helper for the statements below. *)
Lemma list_documents_all eng d :
  exists L : list (ObjectId * doc),
    list_documents eng None (Some d) = (Ok (entry_out <$> L), Some d) /\
    L ≡ₚ map_to_list (coll d DOC_COLLECTION).
Proof.
  destruct (list_documents_run eng None d (fun _ => true) eq_refl)
    as (L & Hrun & Hperm & _).
  exists L. split; [done|]. by rewrite filter_all in Hperm.
Qed.

(** X14: without a query every stored document is listed, each exactly
    once, so the listing is as long as the collection; an empty query
    string is no query. *)
Theorem list_without_query_returns_every_document (eng : Engine) (d : database) :
  list_documents eng (Some "") (Some d) = list_documents eng None (Some d) /\
  exists outs : list DocumentOut.t,
    list_documents eng None (Some d) = (Ok outs, Some d) /\
    outs ≡ₚ entry_out <$> map_to_list (coll d DOC_COLLECTION) /\
    length outs = size (coll d DOC_COLLECTION).
Proof.
  split; [reflexivity|].
  destruct (list_documents_all eng d) as (L & Hrun & Hperm).
  exists (entry_out <$> L). split; [done|]. split; [by rewrite Hperm|].
  by rewrite length_fmap, Hperm, length_map_to_list.
Qed.

(** X16: a created document shows up in the listing: the unfiltered
    listing after the creation is the listing before it plus the
    representation the creation returned. *)
Theorem created_document_is_listed
    (eng : Engine) (new_id : ObjectId) (now : Z) (payload : DocumentCreate.t)
    (d : database) :
  coll d DOC_COLLECTION !! new_id = None ->
  exists (out : DocumentOut.t) (d' : database) (before after : list DocumentOut.t),
    list_documents eng None (Some d) = (Ok before, Some d) /\
    create_document_metadata new_id now payload (Some d) = (Ok out, Some d') /\
    list_documents eng None (Some d') = (Ok after, Some d') /\
    after ≡ₚ out :: before.
Proof.
  intros Hfresh.
  set (d' := db_insert DOC_COLLECTION new_id (created_doc now payload) d).
  destruct (list_documents_all eng d) as (L & Hrun & Hperm).
  destruct (list_documents_all eng d') as (L' & Hrun' & Hperm').
  exists (stored_out new_id (created_doc now payload)), d',
    (entry_out <$> L), (entry_out <$> L').
  split; [done|]. split; [|split; [done|]].
  - unfold create_document_metadata. exec. rewrite Hfresh.
    rewrite ObjectId_of_str_of_ObjectId. exec.
    fold d'. unfold d' at 1. rewrite coll_db_insert_same, lookup_insert_eq. simpl.
    by rewrite document_out_with_id.
  - rewrite Hperm', Hperm. unfold d'. rewrite coll_db_insert_same.
    by rewrite map_to_list_insert.
Qed.

(** X16 at work: the sample invoice created in an empty database. *)
Lemma created_document_is_listed_witness :
  exists (out : DocumentOut.t) (d' : database) (after : list DocumentOut.t),
    create_document_metadata Sample.oid_a 1 Sample.invoice (Some ∅) = (Ok out, Some d') /\
    list_documents Sample.engine None (Some d') = (Ok after, Some d') /\
    out ∈ after.
Proof.
  destruct (created_document_is_listed Sample.engine Sample.oid_a 1 Sample.invoice ∅)
    as (out & d' & before & after & _ & Hcreate & Hlist & Hperm).
  - apply lookup_coll_empty.
  - exists out, d', after. split; [exact Hcreate|]. split; [exact Hlist|].
    rewrite Hperm. apply list_elem_of_here.
Defined.

(** X17: a deleted document disappears from the listing and nothing else
    does: the unfiltered listing before the delete is the listing after
    it plus the representation of the deleted document. *)
Theorem deleted_document_is_not_listed
    (eng : Engine) (doc_id : string) (d : database) (oid : ObjectId) (x : doc) :
  ObjectId_of_str doc_id = Some (Id oid) ->
  coll d DOC_COLLECTION !! oid = Some x ->
  exists (d' : database) (before after : list DocumentOut.t),
    list_documents eng None (Some d) = (Ok before, Some d) /\
    delete_document doc_id (Some d) = (Ok {[ "status" := VStr "deleted" ]}, Some d') /\
    list_documents eng None (Some d') = (Ok after, Some d') /\
    before ≡ₚ stored_out oid x :: after.
Proof.
  intros Hp Hx.
  pose proof (delete_document_found _ _ _ _ Hp Hx) as Hdel.
  set (d' := db_delete _ _ _) in Hdel.
  destruct (list_documents_all eng d) as (L & Hrun & Hperm).
  destruct (list_documents_all eng d') as (L' & Hrun' & Hperm').
  exists d', (entry_out <$> L), (entry_out <$> L').
  split; [done|]. split; [done|]. split; [done|].
  rewrite Hperm, Hperm'.
  rewrite (delete_document_docs _ _ _ _ _ _ Hp Hx Hdel).
  by rewrite <- (map_to_list_delete _ _ _ Hx).
Qed.

(** X17 at work: the sample invoice deleted. *)
Lemma deleted_document_is_not_listed_witness :
  exists (d' : database) (before after : list DocumentOut.t),
    list_documents Sample.engine None (Some Sample.db_invoice)
      = (Ok before, Some Sample.db_invoice) /\
    list_documents Sample.engine None (Some d') = (Ok after, Some d') /\
    before ≡ₚ stored_out Sample.oid_a (created_doc 1 Sample.invoice) :: after.
Proof.
  destruct (deleted_document_is_not_listed Sample.engine Sample.id_a Sample.db_invoice
              Sample.oid_a (created_doc 1 Sample.invoice))
    as (d' & before & after & Hb & _ & Ha & Hperm).
  - exact sample_parse.
  - exact sample_invoice_stored.
  - exists d', before, after. repeat split; assumption.
Defined.

(** ** The preview *)

Lemma length_string_of_list_byte (l : list byte) :
  String.length (string_of_list_byte l) = length l.
Proof.
  unfold string_of_list_byte.
  induction l as [|b l IH]; simpl; congruence.
Qed.

(** X18: the preview is bounded: after a text or PDF upload the stored
    and returned preview is a text of at most 1024 bytes, and of no more
    bytes than the file has. *)
Theorem preview_has_at_most_1024_bytes
    (new_id : ObjectId) (now : Z) (doc_id : string) (file : UploadFile.t)
    (d : database) (oid : ObjectId) (x : doc) :
  ObjectId_of_str doc_id = Some (Id oid) ->
  coll d DOC_COLLECTION !! oid = Some x ->
  coll d FILE_COLLECTION !! new_id = None ->
  wants_preview (UploadFile.content_type file) = true ->
  exists (out : DocumentOut.t) (d' : database) (s : string),
    upload_document_file new_id now doc_id file (Some d) = (Ok out, Some d') /\
    DocumentOut.text_preview out = VStr s /\
    (String.length s <= 1024)%nat /\
    (String.length s <= length (UploadFile.read file))%nat.
Proof.
  intros Hp Hx Hfresh Hw.
  destruct (decode_ignore_sublist (take 1024 (UploadFile.read file)))
    as (kept & Hkept & Hsub).
  eexists _, _, (Utf8.decode_ignore (take 1024 (UploadFile.read file))).
  split; [by apply upload_document_file_ok|].
  split.
  { simpl. unfold get. by rewrite uploaded_doc_preview. }
  rewrite Hkept, length_string_of_list_byte.
  apply sublist_length in Hsub. rewrite length_take in Hsub. lia.
Qed.

(** X18 at work: [hello.txt] on the sample invoice. *)
Lemma preview_has_at_most_1024_bytes_witness :
  exists (out : DocumentOut.t) (d' : database) (s : string),
    upload_document_file Sample.oid_b 2 Sample.id_a Sample.hello_txt
      (Some Sample.db_invoice) = (Ok out, Some d') /\
    DocumentOut.text_preview out = VStr s /\
    (String.length s <= 1024)%nat.
Proof.
  destruct (preview_has_at_most_1024_bytes Sample.oid_b 2 Sample.id_a
              Sample.hello_txt Sample.db_invoice Sample.oid_a
              (created_doc 1 Sample.invoice))
    as (out & d' & s & Hrun & Hs & Hlen & _).
  - exact sample_parse.
  - exact sample_invoice_stored.
  - apply sample_invoice_no_blob.
  - reflexivity.
  - exists out, d', s. repeat split; assumption.
Defined.

(** X19: when the first 1024 bytes of a text or PDF upload are ASCII, the
    preview is exactly those bytes. *)
Theorem ascii_preview_is_the_first_1024_bytes
    (new_id : ObjectId) (now : Z) (doc_id : string) (file : UploadFile.t)
    (d : database) (oid : ObjectId) (x : doc) :
  ObjectId_of_str doc_id = Some (Id oid) ->
  coll d DOC_COLLECTION !! oid = Some x ->
  coll d FILE_COLLECTION !! new_id = None ->
  wants_preview (UploadFile.content_type file) = true ->
  Forall (fun b => (Byte.to_N b < 128)%N) (take 1024 (UploadFile.read file)) ->
  exists (out : DocumentOut.t) (d' : database),
    upload_document_file new_id now doc_id file (Some d) = (Ok out, Some d') /\
    DocumentOut.text_preview out
      = VStr (string_of_list_byte (take 1024 (UploadFile.read file))).
Proof.
  intros Hp Hx Hfresh Hw Hascii.
  eexists _, _. split; [by apply upload_document_file_ok|].
  simpl. unfold get. rewrite uploaded_doc_preview by done. simpl.
  unfold preview_of. f_equal. by apply decode_ignore_ascii.
Qed.

(** X19 at work: [hello.txt] on the sample invoice. *)
Lemma ascii_preview_witness :
  exists (out : DocumentOut.t) (d' : database),
    upload_document_file Sample.oid_b 2 Sample.id_a Sample.hello_txt
      (Some Sample.db_invoice) = (Ok out, Some d') /\
    DocumentOut.text_preview out = VStr "hello world".
Proof.
  destruct (ascii_preview_is_the_first_1024_bytes Sample.oid_b 2 Sample.id_a
              Sample.hello_txt Sample.db_invoice Sample.oid_a
              (created_doc 1 Sample.invoice))
    as (out & d' & Hrun & Hs).
  - exact sample_parse.
  - exact sample_invoice_stored.
  - apply sample_invoice_no_blob.
  - reflexivity.
  - simpl. repeat constructor.
  - exists out, d'. split; assumption.
Defined.

(** ** Referential integrity *)

(** The handle each writing route leaves. *)
Lemma create_document_metadata_state new_id now payload d :
  snd (create_document_metadata new_id now payload (Some d))
    = Some (match coll d DOC_COLLECTION !! new_id with
            | None => db_insert DOC_COLLECTION new_id (created_doc now payload) d
            | Some _ => d
            end).
Proof.
  unfold create_document_metadata. exec.
  destruct (coll d DOC_COLLECTION !! new_id) eqn:Hn; [done|].
  rewrite ObjectId_of_str_of_ObjectId. exec.
  rewrite coll_db_insert_same, lookup_insert_eq. simpl.
  by rewrite document_out_with_id.
Qed.

Lemma upload_document_file_state new_id now doc_id file d :
  snd (upload_document_file new_id now doc_id file (Some d)) = Some d \/
  exists oid x,
    coll d DOC_COLLECTION !! oid = Some x /\
    coll d FILE_COLLECTION !! new_id = None /\
    snd (upload_document_file new_id now doc_id file (Some d))
      = Some (uploaded_db new_id now oid file d).
Proof.
  destruct (ObjectId_of_str doc_id) as [[oid|hex]|] eqn:Hp.
  - destruct (coll d DOC_COLLECTION !! oid) as [x|] eqn:Hx.
    + destruct (coll d FILE_COLLECTION !! new_id) as [y|] eqn:Hf.
      * left. unfold upload_document_file. rewrite Hp. exec.
        rewrite Hx. simpl. by rewrite Hf.
      * right. exists oid, x. split; [done|]. split; [done|].
        by rewrite (upload_document_file_ok _ now _ file _ _ _ Hp Hx Hf).
    + left. unfold upload_document_file. rewrite Hp. exec. by rewrite Hx.
  - left. unfold upload_document_file. by rewrite Hp.
  - left. unfold upload_document_file. by rewrite Hp.
Qed.

Lemma update_document_state doc_id payload d :
  snd (update_document doc_id payload (Some d)) = Some d \/
  exists oid x,
    coll d DOC_COLLECTION !! oid = Some x /\
    snd (update_document doc_id payload (Some d))
      = Some (<[DOC_COLLECTION := <[oid := updated_doc payload x]>
                                    (coll d DOC_COLLECTION)]> d).
Proof.
  destruct (ObjectId_of_str doc_id) as [[oid|hex]|] eqn:Hp.
  - destruct (coll d DOC_COLLECTION !! oid) as [x|] eqn:Hx.
    + right. exists oid, x. split; [done|].
      rewrite (update_document_found _ payload _ _ _ Hp Hx). simpl.
      unfold db_set. by rewrite Hx.
    + left. by rewrite (update_document_missing _ payload _ _ Hp Hx).
  - left. unfold update_document. by rewrite Hp.
  - left. unfold update_document. by rewrite Hp.
Qed.

Lemma delete_document_state doc_id d :
  snd (delete_document doc_id (Some d)) = Some d \/
  exists oid x,
    coll d DOC_COLLECTION !! oid = Some x /\
    snd (delete_document doc_id (Some d))
      = Some (db_delete DOC_COLLECTION oid
                (match get x "file_blob_id" with
                 | VOid (Id b) => db_delete FILE_COLLECTION b d
                 | _ => d
                 end)).
Proof.
  destruct (ObjectId_of_str doc_id) as [[oid|hex]|] eqn:Hp.
  - destruct (coll d DOC_COLLECTION !! oid) as [x|] eqn:Hx.
    + right. exists oid, x. split; [done|].
      by rewrite (delete_document_found _ _ _ _ Hp Hx).
    + left. unfold delete_document. rewrite Hp. exec. by rewrite Hx.
  - left. unfold delete_document. by rewrite Hp.
  - left. unfold delete_document. by rewrite Hp.
Qed.

Lemma referential_empty : referential ∅.
Proof. intros o x v Hx. by rewrite lookup_coll_empty in Hx. Qed.

Lemma referential_create new_id now payload d :
  referential d ->
  coll d DOC_COLLECTION !! new_id = None ->
  referential (db_insert DOC_COLLECTION new_id (created_doc now payload) d).
Proof.
  intros Hd Hfresh o x v.
  rewrite coll_db_insert_same, coll_db_insert_ne by apply collections_differ.
  destruct (decide (new_id = o)) as [<-|Ho].
  - rewrite lookup_insert_eq. intros [= <-]. unfold created_doc. by fields.
  - rewrite lookup_insert_ne by done. apply Hd.
Qed.

Lemma referential_upload new_id now oid file d x :
  referential d ->
  coll d DOC_COLLECTION !! oid = Some x ->
  coll d FILE_COLLECTION !! new_id = None ->
  referential (uploaded_db new_id now oid file d).
Proof.
  intros Hd Hx Hfresh o y v.
  rewrite (coll_uploaded_db_doc _ _ _ _ _ _ Hx), coll_uploaded_db_file.
  destruct (decide (oid = o)) as [<-|Ho].
  - rewrite lookup_insert_eq. intros [= <-]. rewrite uploaded_doc_blob_id.
    intros [= <-].
    exists new_id, (stored_blob oid now file), (UploadFile.read file).
    split; [done|]. split; [apply lookup_insert_eq|].
    unfold stored_blob. split; by fields.
  - rewrite lookup_insert_ne by done. intros Hy Hv.
    destruct (Hd o y v Hy Hv) as (b & blob & content & -> & Hb & Hback & Hc).
    exists b, blob, content. split; [done|]. split; [|done].
    rewrite lookup_insert_ne; [done|]. intros ->. congruence.
Qed.

Lemma referential_update oid payload d x :
  referential d ->
  coll d DOC_COLLECTION !! oid = Some x ->
  referential (<[DOC_COLLECTION := <[oid := updated_doc payload x]>
                                     (coll d DOC_COLLECTION)]> d).
Proof.
  intros Hd Hx o y v.
  change (<[DOC_COLLECTION := <[oid := updated_doc payload x]>
                                (coll d DOC_COLLECTION)]> d)
    with (db_insert DOC_COLLECTION oid (updated_doc payload x) d).
  rewrite coll_db_insert_same, coll_db_insert_ne by apply collections_differ.
  destruct (decide (oid = o)) as [<-|Ho].
  - rewrite lookup_insert_eq. intros [= <-].
    rewrite updated_doc_frame by done. by apply Hd.
  - rewrite lookup_insert_ne by done. apply Hd.
Qed.

Lemma referential_delete oid d x :
  referential d ->
  coll d DOC_COLLECTION !! oid = Some x ->
  referential (db_delete DOC_COLLECTION oid
                 (match get x "file_blob_id" with
                  | VOid (Id b) => db_delete FILE_COLLECTION b d
                  | _ => d
                  end)).
Proof.
  intros Hd Hx o y v.
  rewrite coll_db_delete_same, coll_db_delete_ne by apply collections_differ.
  assert (Hdocs : coll (match get x "file_blob_id" with
                        | VOid (Id b) => db_delete FILE_COLLECTION b d
                        | _ => d
                        end) DOC_COLLECTION = coll d DOC_COLLECTION).
  { destruct (get x "file_blob_id") as [| | | |[b|hex]| |]; try done.
    apply coll_db_delete_ne, collections_differ'. }
  rewrite Hdocs.
  destruct (decide (oid = o)) as [<-|Ho]; [by rewrite lookup_delete_eq|].
  rewrite lookup_delete_ne by done. intros Hy Hv.
  destruct (Hd o y v Hy Hv) as (b & blob & content & -> & Hb & Hback & Hc).
  exists b, blob, content. split; [done|]. split; [|done].
  unfold get. destruct (x !! "file_blob_id") as [w|] eqn:Hw; simpl; [|done].
  destruct (Hd oid x w Hx Hw) as (b' & blob' & content' & -> & Hb' & Hback' & _).
  rewrite coll_db_delete_same, lookup_delete_ne; [done|].
  intros ->. congruence.
Qed.

(** X20: every route keeps the references between the two collections
    intact.  If each blob reference held by a document names a stored blob
    that points back at the document and carries bytes, the same holds in
    the database any of the six data routes leaves, for every request and
    whatever identifier an insertion is given. *)
Theorem handlers_keep_references_intact
    (h : option database) (new_id : ObjectId) (now : Z)
    (payload : DocumentCreate.t) (doc_id : string) (file : UploadFile.t)
    (eng : Engine) (q : option string) :
  referential_handle h ->
  referential_handle (snd (create_document_metadata new_id now payload h)) /\
  referential_handle (snd (upload_document_file new_id now doc_id file h)) /\
  referential_handle (snd (download_document_file doc_id h)) /\
  referential_handle (snd (list_documents eng q h)) /\
  referential_handle (snd (update_document doc_id payload h)) /\
  referential_handle (snd (delete_document doc_id h)).
Proof.
  intros Hh. destruct h as [d|]; [|by repeat split].
  simpl in Hh. repeat split.
  - rewrite create_document_metadata_state. simpl.
    destruct (coll d DOC_COLLECTION !! new_id) eqn:Hn; [done|].
    by apply referential_create.
  - destruct (upload_document_file_state new_id now doc_id file d)
      as [->|(oid & x & Hx & Hf & ->)]; [done|].
    by apply (referential_upload _ _ _ _ _ x).
  - by rewrite download_keeps_handle.
  - by rewrite list_keeps_handle.
  - destruct (update_document_state doc_id payload d)
      as [->|(oid & x & Hx & ->)]; [done|].
    by apply referential_update.
  - destruct (delete_document_state doc_id d)
      as [->|(oid & x & Hx & ->)]; [done|].
    by apply referential_delete.
Qed.

(** X20 at work: an upload into a database with one document. *)
Lemma handlers_keep_references_witness :
  referential_handle
    (snd (upload_document_file Sample.oid_b 2 Sample.id_a Sample.hello_txt
            (Some Sample.db_invoice))).
Proof.
  destruct (handlers_keep_references_intact (Some Sample.db_invoice) Sample.oid_b 2
              Sample.invoice Sample.id_a Sample.hello_txt Sample.engine None)
    as (_ & Hupload & _).
  - simpl. unfold Sample.db_invoice.
    apply referential_create; [apply referential_empty | apply lookup_coll_empty].
  - exact Hupload.
Defined.

Lemma reachable_referential h : reachable h -> referential_handle h.
Proof.
  induction 1 as [|h new_id now payload _ IH|h new_id now doc_id file _ IH
                  |h doc_id _ IH|h eng q _ IH|h doc_id payload _ IH|h doc_id _ IH].
  - apply referential_empty.
  - destruct h as [d|]; [|done]. rewrite create_document_metadata_state. simpl.
    destruct (coll d DOC_COLLECTION !! new_id) eqn:Hn; [done|].
    by apply referential_create.
  - destruct h as [d|]; [|done].
    destruct (upload_document_file_state new_id now doc_id file d)
      as [->|(oid & x & Hx & Hf & ->)]; [done|].
    by apply (referential_upload _ _ _ _ _ x).
  - by rewrite download_keeps_handle.
  - by rewrite list_keeps_handle.
  - destruct h as [d|]; [|done].
    destruct (update_document_state doc_id payload d)
      as [->|(oid & x & Hx & ->)]; [done|].
    by apply referential_update.
  - destruct h as [d|]; [|done].
    destruct (delete_document_state doc_id d)
      as [->|(oid & x & Hx & ->)]; [done|].
    by apply referential_delete.
Qed.

Lemma reachable_uploaded_blobs h d :
  reachable h -> h = Some d -> uploaded_blobs d.
Proof.
  intros H. revert d.
  induction H as [|h new_id now payload _ IH|h new_id now doc_id file _ IH
                  |h doc_id _ IH|h eng q _ IH|h doc_id payload _ IH|h doc_id _ IH];
    intros d'.
  - intros [= <-] b blob. by rewrite lookup_coll_empty.
  - destruct h as [d|]; [|discriminate].
    rewrite create_document_metadata_state. intros [= <-].
    destruct (coll d DOC_COLLECTION !! new_id); [by apply IH|].
    intros b blob. rewrite coll_db_insert_ne by apply collections_differ.
    by apply IH.
  - destruct h as [d|]; [|discriminate].
    destruct (upload_document_file_state new_id now doc_id file d)
      as [->|(oid & x & Hx & Hf & ->)]; intros [= <-]; [by apply IH|].
    intros b blob. rewrite coll_uploaded_db_file.
    destruct (decide (new_id = b)) as [<-|Hb].
    + rewrite lookup_insert_eq. intros [= <-]. by eexists _, _, _.
    + rewrite lookup_insert_ne by done. by apply IH.
  - rewrite download_keeps_handle. apply IH.
  - rewrite list_keeps_handle. apply IH.
  - destruct h as [d|]; [|discriminate].
    destruct (update_document_state doc_id payload d)
      as [->|(oid & x & Hx & ->)]; intros [= <-]; [by apply IH|].
    intros b blob.
    change (<[DOC_COLLECTION := <[oid := updated_doc payload x]>
                                  (coll d DOC_COLLECTION)]> d)
      with (db_insert DOC_COLLECTION oid (updated_doc payload x) d).
    rewrite coll_db_insert_ne by apply collections_differ.
    by apply IH.
  - destruct h as [d|]; [|discriminate].
    destruct (delete_document_state doc_id d)
      as [->|(oid & x & Hx & ->)]; intros [= <-]; [by apply IH|].
    intros b blob. rewrite coll_db_delete_ne by apply collections_differ.
    destruct (get x "file_blob_id") as [| | | |[b'|hex]| |]; try by apply IH.
    rewrite coll_db_delete_same. intros [_ Hb]%lookup_delete_Some.
    by apply (IH d eq_refl b).
Qed.

(** X21: through the routes alone no reference ever dangles.  In any
    database reached from an empty one by requests to the six data
    routes, the download of a document that holds a blob reference never
    answers 404: the reference names a stored blob, the record of an
    upload, and the download returns the bytes, the media type and the
    file name of that upload.  The one way it fails is in building the
    response, when the file name or the content type of the upload has a
    character above U+00FF. *)
Theorem reachable_document_with_file_downloads
    (d : database) (doc_id : string) (oid : ObjectId) (x : doc) (v : value) :
  reachable (Some d) ->
  ObjectId_of_str doc_id = Some (Id oid) ->
  coll d DOC_COLLECTION !! oid = Some x ->
  x !! "file_blob_id" = Some v ->
  exists (b : ObjectId) (now : Z) (file : UploadFile.t),
    v = VOid b /\
    coll d FILE_COLLECTION !! b = Some (stored_blob oid now file) /\
    download_document_file doc_id (Some d)
      = (if header_safe (UploadFile.filename file)
            && header_safe (UploadFile.content_type file)
         then Ok (StreamingResponse.Build
                    (UploadFile.read file)
                    (match UploadFile.content_type file with
                     | Some ct =>
                         if Text.nonempty ct then VStr ct
                         else VStr "application/octet-stream"
                     | None => VStr "application/octet-stream"
                     end)
                    (of_opt_str (UploadFile.filename file)))
         else HTTPException 500 "Internal Server Error",
         Some d).
Proof.
  intros Hreach Hp Hx Hv.
  destruct (reachable_referential _ Hreach oid x v Hx Hv)
    as (b & blob & content & -> & Hb & Hback & _).
  destruct (reachable_uploaded_blobs _ d Hreach eq_refl b blob Hb)
    as (oid' & now & file & ->).
  assert (oid' = oid) as ->.
  { revert Hback. unfold stored_blob. fields. by intros [= ->]. }
  exists b, now, file. split; [done|]. split; [done|].
  unfold download_document_file. rewrite Hp. exec. rewrite Hx. simpl.
  rewrite get_with_id by done. unfold get at 1 2. rewrite Hv. simpl.
  rewrite Hb. simpl.
  unfold blob_content, py_or, get, get_or, with_id, stored_blob. fields.
  exec. unfold streaming_response, header_text, header_safe.
  destruct (UploadFile.filename file) as [name|],
    (UploadFile.content_type file) as [[|c ct]|];
    cbn [of_opt_str truthy Text.nonempty default from_option id];
    try destruct (Text.latin1 name); try destruct (Text.latin1 (String c ct));
    reflexivity.
Qed.

Lemma sample_attached_reachable : reachable (Some Scenario.db_attached).
Proof.
  assert (H1 : reachable (Some Sample.db_invoice)).
  { pose proof (reach_create _ Sample.oid_a 1 Sample.invoice reach_start) as H.
    rewrite create_document_metadata_state in H.
    by rewrite lookup_coll_empty in H. }
  pose proof (reach_upload _ Sample.oid_b 2 Sample.id_a Sample.hello_txt H1) as H.
  by rewrite (upload_document_file_ok _ _ _ _ _ _ _ sample_parse
                sample_invoice_stored (sample_invoice_no_blob _)) in H.
Qed.

(** X21 at work: the sample invoice with [hello.txt] attached, reached by
    one creation and one upload. *)
Lemma reachable_document_with_file_witness :
  exists (b : ObjectId) (now : Z) (file : UploadFile.t),
    coll Scenario.db_attached FILE_COLLECTION !! b
      = Some (stored_blob Sample.oid_a now file) /\
    download_document_file Sample.id_a (Some Scenario.db_attached)
      = (if header_safe (UploadFile.filename file)
            && header_safe (UploadFile.content_type file)
         then Ok (StreamingResponse.Build
                    (UploadFile.read file)
                    (match UploadFile.content_type file with
                     | Some ct =>
                         if Text.nonempty ct then VStr ct
                         else VStr "application/octet-stream"
                     | None => VStr "application/octet-stream"
                     end)
                    (of_opt_str (UploadFile.filename file)))
         else HTTPException 500 "Internal Server Error",
         Some Scenario.db_attached).
Proof.
  destruct (reachable_document_with_file_downloads Scenario.db_attached Sample.id_a
              Sample.oid_a
              (uploaded_doc Sample.oid_b Sample.hello_txt (created_doc 1 Sample.invoice))
              (VOid Sample.oid_b))
    as (b & now & file & _ & Hb & Hrun).
  - exact sample_attached_reachable.
  - exact sample_parse.
  - exact sample_attached_stored.
  - apply uploaded_doc_blob_id.
  - exists b, now, file. split; assumption.
Defined.

(** There the download returns [hello world], as [text/plain], named
    [hello.txt]. *)
Example download_of_attached_hello :
  fst (download_document_file Sample.id_a (Some Scenario.db_attached))
    = Ok (StreamingResponse.Build (list_byte_of_string "hello world")
            (VStr "text/plain") (VStr "hello.txt")).
Proof. vm_compute. reflexivity. Qed.

(** ** Failed requests *)

(** Each writing route either answers with an error and the database as
    it was, or succeeds. *)
Lemma create_document_metadata_cases new_id now payload d :
  (exists c m, create_document_metadata new_id now payload (Some d)
                 = (HTTPException c m, Some d)) \/
  (exists out d', create_document_metadata new_id now payload (Some d)
                    = (Ok out, Some d')).
Proof.
  unfold create_document_metadata. exec.
  destruct (coll d DOC_COLLECTION !! new_id) eqn:Hn; [left; by eexists _, _|].
  right. rewrite ObjectId_of_str_of_ObjectId. exec.
  rewrite coll_db_insert_same, lookup_insert_eq. simpl.
  rewrite document_out_with_id. by eexists _, _.
Qed.

Lemma upload_document_file_cases new_id now doc_id file d :
  (exists c m, upload_document_file new_id now doc_id file (Some d)
                 = (HTTPException c m, Some d)) \/
  (exists out d', upload_document_file new_id now doc_id file (Some d)
                    = (Ok out, Some d')).
Proof.
  destruct (ObjectId_of_str doc_id) as [[oid|hex]|] eqn:Hp.
  - destruct (coll d DOC_COLLECTION !! oid) as [x|] eqn:Hx.
    + destruct (coll d FILE_COLLECTION !! new_id) as [y|] eqn:Hf.
      * left. unfold upload_document_file. rewrite Hp. exec.
        rewrite Hx. simpl. rewrite Hf. by eexists _, _.
      * right. rewrite (upload_document_file_ok _ now _ file _ _ _ Hp Hx Hf).
        by eexists _, _.
    + left. unfold upload_document_file. rewrite Hp. exec. rewrite Hx.
      by eexists _, _.
  - left. unfold upload_document_file. rewrite Hp. by eexists _, _.
  - left. unfold upload_document_file. rewrite Hp. by eexists _, _.
Qed.

Lemma update_document_cases doc_id payload d :
  (exists c m, update_document doc_id payload (Some d)
                 = (HTTPException c m, Some d)) \/
  (exists out d', update_document doc_id payload (Some d) = (Ok out, Some d')).
Proof.
  destruct (ObjectId_of_str doc_id) as [[oid|hex]|] eqn:Hp.
  - destruct (coll d DOC_COLLECTION !! oid) as [x|] eqn:Hx.
    + right. rewrite (update_document_found _ payload _ _ _ Hp Hx). by eexists _, _.
    + left. rewrite (update_document_missing _ payload _ _ Hp Hx). by eexists _, _.
  - left. unfold update_document. rewrite Hp. by eexists _, _.
  - left. unfold update_document. rewrite Hp. by eexists _, _.
Qed.

Lemma delete_document_cases doc_id d :
  (exists c m, delete_document doc_id (Some d) = (HTTPException c m, Some d)) \/
  (exists out d', delete_document doc_id (Some d) = (Ok out, Some d')).
Proof.
  destruct (ObjectId_of_str doc_id) as [[oid|hex]|] eqn:Hp.
  - destruct (coll d DOC_COLLECTION !! oid) as [x|] eqn:Hx.
    + right. rewrite (delete_document_found _ _ _ _ Hp Hx). by eexists _, _.
    + left. unfold delete_document. rewrite Hp. exec. rewrite Hx. by eexists _, _.
  - left. unfold delete_document. rewrite Hp. by eexists _, _.
  - left. unfold delete_document. rewrite Hp. by eexists _, _.
Qed.

(** X22: a writing route that answers with an error has written nothing:
    whenever create, upload, update or delete does not answer with a
    success, the database handle is exactly what it was before the
    request. *)
Theorem failed_requests_write_nothing
    (h : option database) (new_id : ObjectId) (now : Z)
    (payload : DocumentCreate.t) (doc_id : string) (file : UploadFile.t) :
  (forall r h',
     create_document_metadata new_id now payload h = (r, h') ->
     (forall out, r <> Ok out) -> h' = h) /\
  (forall r h',
     upload_document_file new_id now doc_id file h = (r, h') ->
     (forall out, r <> Ok out) -> h' = h) /\
  (forall r h',
     update_document doc_id payload h = (r, h') ->
     (forall out, r <> Ok out) -> h' = h) /\
  (forall r h',
     delete_document doc_id h = (r, h') ->
     (forall out, r <> Ok out) -> h' = h).
Proof.
  destruct h as [d|]; [|repeat split; by intros r h' [= <- <-]].
  repeat split; intros r h' Hrun Hfail.
  - destruct (create_document_metadata_cases new_id now payload d)
      as [(c & m & H)|(out & d' & H)]; rewrite H in Hrun;
      injection Hrun as <- <-; [done|]. by destruct (Hfail out).
  - destruct (upload_document_file_cases new_id now doc_id file d)
      as [(c & m & H)|(out & d' & H)]; rewrite H in Hrun;
      injection Hrun as <- <-; [done|]. by destruct (Hfail out).
  - destruct (update_document_cases doc_id payload d)
      as [(c & m & H)|(out & d' & H)]; rewrite H in Hrun;
      injection Hrun as <- <-; [done|]. by destruct (Hfail out).
  - destruct (delete_document_cases doc_id d)
      as [(c & m & H)|(out & d' & H)]; rewrite H in Hrun;
      injection Hrun as <- <-; [done|]. by destruct (Hfail out).
Qed.

(** ** The case of the query *)

Lemma lower_ascii_lt192 c :
  (Text.code (Text.lower_ascii c) <? 192)%N = (Text.code c <? 192)%N.
Proof. destruct c as [[] [] [] [] [] [] [] []]; reflexivity. Qed.

Lemma lower_ascii_lead c :
  (Text.code c <? 192)%N = false -> Text.lower_ascii c = c.
Proof.
  destruct c as [[] [] [] [] [] [] [] []]; intros H;
    (reflexivity || discriminate H).
Qed.

Lemma is_cont_lower c : Text.is_cont (Text.lower_ascii c) = Text.is_cont c.
Proof. destruct c as [[] [] [] [] [] [] [] []]; reflexivity. Qed.

Lemma cont_fixed c : Text.is_cont c = true -> Text.lower_ascii c = c.
Proof.
  destruct c as [[] [] [] [] [] [] [] []]; intros H;
    (reflexivity || discriminate H).
Qed.

Lemma casefold_lower tbl c :
  Regex.casefold tbl (Text.code (Text.lower_ascii c))
    = Regex.casefold tbl (Text.code c).
Proof. destruct c as [[] [] [] [] [] [] [] []]; reflexivity. Qed.

(** Lowering the ASCII letters of a text moves no character boundary and
    changes no character beyond its case. *)
Lemma char_at_lower tbl c t :
  Regex.casefold tbl (Text.char_at (Text.lower_ascii c) (Text.lower t)).1
    = Regex.casefold tbl (Text.char_at c t).1 /\
  (Text.char_at (Text.lower_ascii c) (Text.lower t)).2 = (Text.char_at c t).2.
Proof.
  unfold Text.char_at. cbv zeta. rewrite lower_ascii_lt192.
  destruct (Text.code c <? 192)%N eqn:E.
  { simpl. split; [apply casefold_lower|done]. }
  rewrite (lower_ascii_lead c E).
  destruct t as [|c1 [|c2 [|c3 t3]]]; cbn [Text.lower]; rewrite ?is_cont_lower;
    repeat match goal with
    | |- context [Text.is_cont ?x] =>
        let H := fresh in destruct (Text.is_cont x) eqn:H;
        [rewrite ?(cont_fixed x H)|]
    end;
    repeat case_match; done.
Qed.

Lemma chars_from_lower tbl s k :
  Regex.casefold tbl <$> Text.chars_from k (Text.lower s)
    = Regex.casefold tbl <$> Text.chars_from k s.
Proof.
  revert k. induction s as [|c t IH]; intros k; [done|].
  cbn [Text.lower Text.chars_from]. destruct k as [|k]; [|apply IH].
  destruct (char_at_lower tbl c t) as [H1 H2].
  csimpl. by rewrite H1, H2, IH.
Qed.

Lemma title_or_tag_contains_lower e q1 q2 x :
  Text.lower q1 = Text.lower q2 ->
  title_or_tag_contains e q1 x = title_or_tag_contains e q2 x.
Proof.
  intros H.
  assert (Hc : forall s, contains_ci e q1 s = contains_ci e q2 s).
  { intros s. unfold contains_ci, Text.codepoints.
    by rewrite <- (chars_from_lower _ q1), <- (chars_from_lower _ q2), H. }
  assert (Hv : forall v, text_contains e q1 v = text_contains e q2 v)
    by (intros []; simpl; auto).
  assert (He : forall l, existsb (text_contains e q1) l
                         = existsb (text_contains e q2) l).
  { induction l as [|v l IH]; simpl; [done|]. by rewrite Hv, IH. }
  unfold title_or_tag_contains, title_contains, some_tag_contains.
  f_equal.
  - destruct (x !! "title") as [[]|]; auto.
  - destruct (x !! "tags") as [[]|]; auto.
Qed.

(** X23: the search ignores the case of the query: two non-empty literal
    queries that differ only in the case of ASCII letters give the same
    listing, in the same order. *)
Theorem search_ignores_query_case
    (eng : Engine) (q1 q2 : string) (d : database) :
  Text.nonempty q1 = true ->
  Regex.literal q1 = true ->
  Regex.literal q2 = true ->
  Text.lower q1 = Text.lower q2 ->
  list_documents eng (Some q1) (Some d) = list_documents eng (Some q2) (Some d).
Proof.
  intros Hne Hl1 Hl2 Hlow.
  assert (Hne2 : Text.nonempty q2 = true).
  { destruct q1, q2; simpl in *; done. }
  destruct (select_literal eng q1 Hl1) as (p1 & Hs1 & Hp1).
  destruct (select_literal eng q2 Hl2) as (p2 & Hs2 & Hp2).
  unfold list_documents. exec. unfold find_sorted, filter_query. exec.
  rewrite Hne, Hne2, Hs1, Hs2.
  replace (List.filter p2 (documents (coll d DOC_COLLECTION)))
    with (List.filter p1 (documents (coll d DOC_COLLECTION))); [done|].
  unfold documents. rewrite !filter_fmap. f_equal.
  apply List.filter_ext. intros [o x]. simpl.
  rewrite Hp1, Hp2. by apply title_or_tag_contains_lower.
Qed.

(** X23 at work: [INVOICE] and [invoice] over the sample database. *)
Lemma search_ignores_query_case_witness :
  list_documents Sample.engine (Some "INVOICE") (Some Sample.db_invoice)
    = list_documents Sample.engine (Some "invoice") (Some Sample.db_invoice).
Proof.
  apply (search_ignores_query_case Sample.engine "INVOICE" "invoice"
           Sample.db_invoice);
    reflexivity.
Defined.
